(** * The demo MCP filesystem server: path guard, tool handlers, dispatcher

    A shallow embedding of [demos/epic6/demo_servers/filesystem_server.py]
    (class [MCPFilesystemServer]) and the properties its specification
    states about it.

    Layout:
    - [PyData]: Python strings and JSON values as the code handles them;
    - [PosixPath]: the [os.path] functions the server calls;
    - [Effects]: exceptions, the platform interface and the state/error monad;
    - [Server]: the class itself, method by method;
    - [MemFS]: an in-memory platform used to run the server on examples;
    - the vocabulary of the properties, then the properties themselves,
      grouped by method. *)

From Stdlib Require Import ZArith NArith List String Ascii Bool Lia.
From Stdlib Require Import Permutation Sorted PrimFloat DecimalString.
Import ListNotations.

Set Implicit Arguments.
Set Warnings "-register-all".
Local Open Scope list_scope.
Local Open Scope bool_scope.

(* ================================================================== *)
(** ** Python data *)

Module PyData.

(** A Python [str] is a sequence of Unicode code points: [len] counts code
    points, [<] compares them lexicographically, [startswith] is a prefix
    test on them. *)
Definition codepoint := N.
Definition str := list codepoint.

(** An ASCII literal of the source as a [str]. *)
Definition lit (s : string) : str :=
  map N_of_ascii (list_ascii_of_string s).

Fixpoint str_eqb (a b : str) : bool :=
  match a, b with
  | [], [] => true
  | x :: a', y :: b' => N.eqb x y && str_eqb a' b'
  | _, _ => false
  end.

(** [s.startswith(p)] *)
Fixpoint startswith (s p : str) : bool :=
  match p, s with
  | [], _ => true
  | y :: p', x :: s' => N.eqb x y && startswith s' p'
  | _ :: _, [] => false
  end.

(** [s.endswith(c)] for a one-character [c] *)
Definition endswith_char (s : str) (c : codepoint) : bool :=
  match rev s with
  | x :: _ => N.eqb x c
  | [] => false
  end.

(** [a < b] on [str]: lexicographic on code points. *)
Fixpoint str_ltb (a b : str) : bool :=
  match a, b with
  | _, [] => false
  | [], _ :: _ => true
  | x :: a', y :: b' =>
      if N.ltb x y then true
      else if N.eqb x y then str_ltb a' b'
      else false
  end.

(** [s.rstrip(c)] for a one-character [c] *)
Definition rstrip_char (s : str) (c : codepoint) : str :=
  let fix drop (r : str) : str :=
    match r with
    | x :: r' => if N.eqb x c then drop r' else r
    | [] => []
    end in
  rev (drop (rev s)).

(** [s.split(c)] for a one-character separator [c] *)
Fixpoint split (c : codepoint) (s : str) : list str :=
  match s with
  | [] => [[]]
  | x :: s' =>
      if N.eqb x c then [] :: split c s'
      else match split c s' with
           | comp :: comps => (x :: comp) :: comps
           | [] => [[x]]
           end
  end.

(** [c.join(parts)] for a one-character [c] *)
Fixpoint join_with (c : codepoint) (parts : list str) : str :=
  match parts with
  | [] => []
  | [p] => p
  | p :: rest => p ++ c :: join_with c rest
  end.

(** [x in s] for a substring [x], as a proposition and as a test. *)
Definition contains (s x : str) : Prop :=
  exists pre post, s = pre ++ x ++ post.

Fixpoint containsb (s x : str) : bool :=
  startswith s x ||
  match s with
  | [] => false
  | _ :: s' => containsb s' x
  end.

(** [str(n)] for an [int]: decimal digits, with a leading minus sign. *)
Definition str_of_int (z : Z) : str :=
  lit (NilZero.string_of_int (Z.to_int z)).

(** The values [json.loads] produces, which are also the values the
    server builds its responses from.  A [dict] keeps its items in
    insertion order; its keys are strings. *)
Inductive pyval : Type :=
| PNone
| PBool (b : bool)
| PInt (z : Z)
| PFloat (f : float)
| PStr (s : str)
| PList (l : list pyval)
| PDict (d : list (str * pyval)).

(** Truth value of an object, as [not path] tests it. *)
Definition truthy (v : pyval) : bool :=
  match v with
  | PNone => false
  | PBool b => b
  | PInt z => negb (Z.eqb z 0)
  | PFloat f => negb (PrimFloat.eqb f 0%float)
  | PStr s => match s with [] => false | _ => true end
  | PList l => match l with [] => false | _ => true end
  | PDict d => match d with [] => false | _ => true end
  end.

(** [v == s] for a string literal [s]: only an equal [str] is equal. *)
Definition eq_str (v : pyval) (s : str) : bool :=
  match v with
  | PStr t => str_eqb t s
  | _ => false
  end.

(** [v is None] *)
Definition is_None (v : pyval) : bool :=
  match v with
  | PNone => true
  | _ => false
  end.

(** [type(v).__name__] *)
Definition type_name (v : pyval) : str :=
  match v with
  | PNone => lit "NoneType"
  | PBool _ => lit "bool"
  | PInt _ => lit "int"
  | PFloat _ => lit "float"
  | PStr _ => lit "str"
  | PList _ => lit "list"
  | PDict _ => lit "dict"
  end.

(** Lookup of a key in the items of a [dict]. *)
Fixpoint lookup (d : list (str * pyval)) (k : str) : option pyval :=
  match d with
  | [] => None
  | (k', v) :: d' => if str_eqb k' k then Some v else lookup d' k
  end.

(** [k in v] for a value that is a [dict]; [None] when it is not one. *)
Definition field (v : pyval) (k : string) : option pyval :=
  match v with
  | PDict d => lookup d (lit k)
  | _ => None
  end.

End PyData.
Export PyData.

(* ================================================================== *)
(** ** The [os.path] functions the server calls (POSIX flavour) *)

Module PosixPath.

Definition sep : codepoint := 47%N.
Definition dot : str := lit ".".
Definition dotdot : str := lit "..".

Definition is_nil (A : Type) (l : list A) : bool :=
  match l with
  | [] => true
  | _ => false
  end.

(** [os.path.join(a, b)] with one tail component. *)
Definition join (a b : str) : str :=
  if startswith b [sep] then b
  else if is_nil a || endswith_char a sep then a ++ b
  else a ++ sep :: b.

(** One iteration of the component loop of [normpath]. *)
Definition normpath_step (initial_slashes : nat) (new_comps : list str)
    (comp : str) : list str :=
  if str_eqb comp [] || str_eqb comp dot then new_comps
  else if negb (str_eqb comp dotdot)
          || (Nat.eqb initial_slashes 0 && is_nil new_comps)
          || (negb (is_nil new_comps) && str_eqb (last new_comps []) dotdot)
       then new_comps ++ [comp]
       else removelast new_comps.

(** [os.path.normpath(path)] *)
Definition normpath (path : str) : str :=
  if is_nil path then dot
  else
    let initial_slashes :=
      if startswith path [sep] then
        if startswith path [sep; sep] && negb (startswith path [sep; sep; sep])
        then 2%nat else 1%nat
      else 0%nat in
    let comps := fold_left (normpath_step initial_slashes) (split sep path) [] in
    let path' := repeat sep initial_slashes ++ join_with sep comps in
    if is_nil path' then dot else path'.

(** [os.path.dirname(p)] *)
Definition dirname (p : str) : str :=
  let fix cut (r : str) : str :=
    match r with
    | x :: r' => if N.eqb x sep then r else cut r'
    | [] => []
    end in
  let head := rev (cut (rev p)) in
  if negb (is_nil head) && negb (forallb (N.eqb sep) head)
  then rstrip_char head sep
  else head.

(** [os.path.expanduser(path)] for the forms the constructor passes
    ([~] alone or [~/...]); [home] is the home directory the process
    environment yields, [None] when there is none, in which case the path
    is returned unchanged.  A path of the form [~user...] is not passed by
    the server and is returned unchanged here. *)
Definition expanduser (home : option str) (path : str) : str :=
  match path with
  | 126%N :: rest =>
      match rest, home with
      | [], Some userhome =>
          let r := rstrip_char userhome sep in
          if is_nil r then [sep] else r
      | 47%N :: _, Some userhome => rstrip_char userhome sep ++ rest
      | _, _ => path
      end
  | _ => path
  end.

End PosixPath.
Export PosixPath.

(* ================================================================== *)
(** ** Exceptions, the platform, and the monad of the methods *)

Module Effects.

(** The exception classes the code or the library functions it calls can
    raise.  All of them derive from [Exception]; [OtherException] stands
    for any further subclass of [Exception].  Asynchronous interrupts
    ([KeyboardInterrupt], [SystemExit]) are raised by signals and by
    [sys.exit], not by the methods modelled here. *)
Inductive exn_class : Type :=
| TypeError
| AttributeError
| ValueError
| FileNotFoundError
| PermissionError
| OtherOSError
| OtherException.

(** An exception object: its class and [str(e)]. *)
Record exn : Type := Exn {
  exn_cls : exn_class;
  exn_str : str
}.

Inductive res (A : Type) : Type :=
| Ok (a : A)
| Raise (e : exn).
Arguments Ok {A} a.
Arguments Raise {A} e.

(** What the server needs from its runtime.  [W] is the state of the world
    outside the process (working directory, file system).  Operations that
    only observe the world take it and answer; the two that change it
    return the new world, also when they raise. *)
Class Platform (W : Type) : Type := {
  (** [str(v)] of a [float], a [list] or a [dict] *)
  repr_other : pyval -> str;
  (** [os.getcwd()] *)
  os_getcwd : W -> res str;
  (** [with open(path, 'r', encoding='utf-8') as f: f.read()] *)
  os_read_text : W -> pyval -> res str;
  (** [os.listdir(path)] *)
  os_listdir : W -> pyval -> res (list str);
  (** [os.path.isdir(p)], which never raises *)
  os_isdir : W -> str -> bool;
  (** [os.path.getsize(p)] *)
  os_getsize : W -> str -> res Z;
  (** [os.makedirs(p, exist_ok=True)] *)
  os_makedirs : W -> str -> res unit * W;
  (** [with open(path, 'w', encoding='utf-8') as f: f.write(content)] *)
  os_write_text : W -> pyval -> pyval -> res unit * W
}.

(** A method body: it runs in a world, returns or raises, and leaves a
    world behind. *)
Definition M (W A : Type) : Type := W -> res A * W.

Section Monad.
Context {W : Type}.

Definition ret {A} (a : A) : M W A := fun w => (Ok a, w).

Definition raise {A} (c : exn_class) (msg : str) : M W A :=
  fun w => (Raise (Exn c msg), w).

Definition bind {A B} (m : M W A) (k : A -> M W B) : M W B :=
  fun w =>
    match m w with
    | (Ok a, w') => k a w'
    | (Raise e, w') => (Raise e, w')
    end.

(** An operation that observes the world. *)
Definition observe {A} (f : W -> res A) : M W A := fun w => (f w, w).

(** A value that may be an exception, inside a method. *)
Definition lift {A} (r : res A) : M W A := fun w => (r, w).

(** [try: body except ...: handler]: [handler e] is [None] when no
    [except] clause matches [e], which then propagates. *)
Definition try_except {A} (body : M W A) (handler : exn -> option (M W A))
    : M W A :=
  fun w =>
    match body w with
    | (Ok a, w') => (Ok a, w')
    | (Raise e, w') =>
        match handler e with
        | Some h => h w'
        | None => (Raise e, w')
        end
    end.

(** The body of a [for] loop that builds a list, item by item. *)
Fixpoint for_each {A B} (f : A -> M W B) (l : list A) : M W (list B) :=
  match l with
  | [] => ret []
  | x :: l' =>
      bind (f x) (fun y => bind (for_each f l') (fun ys => ret (y :: ys)))
  end.

End Monad.

Declare Scope py_scope.
Delimit Scope py_scope with py.
Notation "x <- m ;; k" := (bind m (fun x => k))
  (at level 61, m at next level, right associativity) : py_scope.
Notation "m ;;; k" := (bind m (fun _ => k))
  (at level 61, right associativity) : py_scope.

End Effects.
Export Effects.
Local Open Scope py_scope.

(* ================================================================== *)
(** ** The server *)

Module Server.

Definition nl : str := [10%N].

(** The response shapes the methods build as [dict] literals. *)
Definition error_response (code : Z) (message : str) : pyval :=
  PDict [(lit "error",
          PDict [(lit "code", PInt code); (lit "message", PStr message)])].

Definition text_block (text : str) : pyval :=
  PDict [(lit "type", PStr (lit "text")); (lit "text", PStr text)].

(** One parameter of an [inputSchema]. *)
Definition string_property (key description : string) : str * pyval :=
  (lit key,
   PDict [(lit "type", PStr (lit "string"));
          (lit "description", PStr (lit description))]).

Definition tool_descriptor (tool description : string)
    (properties : list (str * pyval)) (required : list string) : pyval :=
  PDict [(lit "name", PStr (lit tool));
         (lit "description", PStr (lit description));
         (lit "inputSchema",
          PDict [(lit "type", PStr (lit "object"));
                 (lit "properties", PDict properties);
                 (lit "required",
                  PList (map (fun r => PStr (lit r)) required))])].

(** The instance attributes set by [__init__]. *)
Record MCPFilesystemServer : Type := {
  tools : pyval;
  safe_paths : list str
}.

(** [MCPFilesystemServer()]; [home] is what [expanduser] finds for [~]. *)
Definition init (home : option str) : MCPFilesystemServer := {|
  tools := PList [
    tool_descriptor "read_file"
      "Read contents of a file with path validation"
      [string_property "path" "Path to the file to read"]
      ["path"%string];
    tool_descriptor "list_directory"
      "List contents of a directory"
      [string_property "path" "Path to the directory to list"]
      ["path"%string];
    tool_descriptor "write_file"
      "Write content to a file (requires confirmation)"
      [string_property "path" "Path where to write the file";
       string_property "content" "Content to write to the file"]
      ["path"%string; "content"%string] ];
  safe_paths := [
    lit "demos/";
    lit "test/";
    lit "docs/";
    lit "/tmp/";
    expanduser home (lit "~/Downloads/");
    expanduser home (lit "~/Documents/") ]
|}.

(** An entry collected by [list_directory]; the source keeps it as a
    [dict] with exactly these three keys. *)
Record entry : Type := {
  name : str;
  type : str;
  size : Z
}.

(** The key of [entries.sort]: [(x["type"] == "file", x["name"])]. *)
Definition sort_key (x : entry) : bool * str :=
  (str_eqb (type x) (lit "file"), name x).

(** [k1 < k2] on such tuples ([False < True] on the first component). *)
Definition key_ltb (k1 k2 : bool * str) : bool :=
  if Bool.eqb (fst k1) (fst k2) then str_ltb (snd k1) (snd k2)
  else negb (fst k1) && fst k2.

(** [list.sort(key=...)] is a stable sort by [<] on the keys; a stable
    sort has one possible result, computed here by insertion. *)
Fixpoint insert_entry (x : entry) (l : list entry) : list entry :=
  match l with
  | [] => [x]
  | y :: l' =>
      if key_ltb (sort_key y) (sort_key x) then y :: insert_entry x l'
      else x :: l
  end.

Fixpoint sort_entries (l : list entry) : list entry :=
  match l with
  | [] => []
  | x :: l' => insert_entry x (sort_entries l')
  end.

(** One line of the listing. *)
Definition render_entry (e : entry) : str :=
  let icon :=
    if str_eqb (type e) (lit "directory") then [128193%N] else [128196%N] in
  let size_str :=
    if str_eqb (type e) (lit "file")
    then lit " (" ++ str_of_int (size e) ++ lit " bytes)"
    else [] in
  icon ++ lit " " ++ name e ++ size_str ++ nl.

Section Methods.
Context {W : Type} {platform : Platform W}.

(** [str(v)], which is what an f-string field [{v}] inserts. *)
Definition py_str (v : pyval) : str :=
  match v with
  | PStr s => s
  | PNone => lit "None"
  | PBool true => lit "True"
  | PBool false => lit "False"
  | PInt z => str_of_int z
  | _ => repr_other v
  end.

(** [len(v)] *)
Definition py_len (v : pyval) : res Z :=
  match v with
  | PStr s => Ok (Z.of_nat (List.length s))
  | PList l => Ok (Z.of_nat (List.length l))
  | PDict d => Ok (Z.of_nat (List.length d))
  | _ => Raise (Exn TypeError
           (lit "object of type '" ++ type_name v ++ lit "' has no len()"))
  end.

(** [v.get(k, default)]; [v.get(k)] is [get v k PNone]. *)
Definition get (v : pyval) (k : string) (default : pyval) : res pyval :=
  match v with
  | PDict d =>
      Ok (match lookup d (lit k) with
          | Some x => x
          | None => default
          end)
  | _ => Raise (Exn AttributeError
           (lit "'" ++ type_name v ++ lit "' object has no attribute 'get'"))
  end.

(** [os.path.join(path, entry)] where [path] is whatever the caller sent. *)
Definition join_val (path : pyval) (b : str) : res str :=
  match path with
  | PStr a => Ok (join a b)
  | _ => Raise (Exn TypeError
           (lit "expected str, bytes or os.PathLike object, not "
            ++ type_name path))
  end.

(** [os.path.abspath(path)] *)
Definition abspath (path : pyval) : M W str :=
  match path with
  | PStr p =>
      if startswith p [sep] then ret (normpath p)
      else cwd <- observe os_getcwd;; ret (normpath (join cwd p))
  | _ => raise TypeError
           (lit "expected str, bytes or os.PathLike object, not "
            ++ type_name path)
  end.

(** The [for safe_path in self.safe_paths] loop of [is_safe_path]. *)
Fixpoint check_safe_paths (resolved_path : str) (roots : list str)
    : M W bool :=
  match roots with
  | [] => ret false
  | safe_path :: rest =>
      safe_resolved <- abspath (PStr safe_path);;
      if startswith resolved_path safe_resolved then ret true
      else check_safe_paths resolved_path rest
  end.

Definition is_safe_path (self : MCPFilesystemServer) (path : pyval)
    : M W bool :=
  try_except
    (resolved_path <- abspath path;;
     check_safe_paths resolved_path (safe_paths self))
    (fun _ => Some (ret false)).

(** [os.path.dirname(path)] where [path] is whatever the caller sent. *)
Definition dirname_val (path : pyval) : res str :=
  match path with
  | PStr p => Ok (dirname p)
  | _ => Raise (Exn TypeError
           (lit "expected str, bytes or os.PathLike object, not "
            ++ type_name path))
  end.

Definition access_denied (path : pyval) : pyval :=
  error_response (-32603)
    (lit "Access denied: Path '" ++ py_str path
     ++ lit "' is outside safe directories").

(** The three tool handlers.  They reach the guard through
    [self.is_safe_path], which Python binds when the call is made; the
    bodies are therefore written over the bound method [guard], and the
    methods of the class below pass [is_safe_path self]. *)
Section Handlers.
Variable guard : pyval -> M W bool.

Definition read_file_body (path : pyval) : M W pyval :=
  if negb (truthy path) then
    ret (error_response (-32602) (lit "Path is required"))
  else
    safe <- guard path;;
    if negb safe then ret (access_denied path)
    else
      try_except
        (content <- observe (fun w => os_read_text w path);;
         ret (PDict [(lit "content",
                      PList [text_block (lit "Contents of " ++ py_str path
                                         ++ lit ":" ++ nl ++ nl ++ content)])]))
        (fun e =>
           match exn_cls e with
           | FileNotFoundError =>
               Some (ret (error_response (-32603)
                            (lit "File not found: " ++ py_str path)))
           | PermissionError =>
               Some (ret (error_response (-32603)
                            (lit "Permission denied: " ++ py_str path)))
           | _ => None
           end).

(** The body of the loop over [os.listdir(path)]. *)
Definition stat_entry (path : pyval) (entry_name : str) : M W entry :=
  entry_path <- lift (join_val path entry_name);;
  is_dir <- observe (fun w => Ok (os_isdir w entry_path));;
  size <- (if negb is_dir then observe (fun w => os_getsize w entry_path)
           else ret 0%Z);;
  ret {| name := entry_name;
         type := if is_dir then lit "directory" else lit "file";
         size := size |}.

(** The text block [list_directory] renders from the sorted entries. *)
Definition render_listing (path : pyval) (entries : list entry) : str :=
  fold_left (fun result_text e => result_text ++ render_entry e) entries
    (lit "Contents of directory " ++ py_str path ++ lit ":" ++ nl ++ nl).

Definition list_directory_body (path : pyval) : M W pyval :=
  if negb (truthy path) then
    ret (error_response (-32602) (lit "Path is required"))
  else
    safe <- guard path;;
    if negb safe then ret (access_denied path)
    else
      try_except
        (names <- observe (fun w => os_listdir w path);;
         entries <- for_each (stat_entry path) names;;
         let entries := sort_entries entries in
         ret (PDict [(lit "content",
                      PList [text_block (render_listing path entries)])]))
        (fun e =>
           match exn_cls e with
           | FileNotFoundError =>
               Some (ret (error_response (-32603)
                            (lit "Directory not found: " ++ py_str path)))
           | PermissionError =>
               Some (ret (error_response (-32603)
                            (lit "Permission denied: " ++ py_str path)))
           | _ => None
           end).

Definition confirmation_text (path : pyval) (n : Z) : str :=
  [9888%N; 65039%N] ++ lit " File write operation requires confirmation:" ++ nl
  ++ lit "Path: " ++ py_str path ++ nl
  ++ lit "Content length: " ++ str_of_int n ++ lit " characters" ++ nl
  ++ lit "This operation would create/overwrite a file." ++ nl
  ++ lit "Please confirm this action through the UI.".

Definition confirmation_metadata : pyval :=
  PDict [(lit "requires_confirmation", PBool true);
         (lit "operation", PStr (lit "file_write"));
         (lit "risk_level", PStr (lit "medium"))].

Definition write_file_body (path content : pyval) : M W pyval :=
  if negb (truthy path) || is_None content then
    ret (error_response (-32602) (lit "Path and content are required"))
  else
    safe <- guard path;;
    if negb safe then ret (access_denied path)
    else
      let confirmation_required := true in
      if confirmation_required then
        n <- lift (py_len content);;
        ret (PDict [(lit "content",
                     PList [text_block (confirmation_text path n)]);
                    (lit "metadata", confirmation_metadata)])
      else
        try_except
          (parent <- lift (dirname_val path);;
           (fun w => os_makedirs w parent);;;
           (fun w => os_write_text w path content);;;
           n <- lift (py_len content);;
           ret (PDict [(lit "content",
                        PList [text_block
                                 ([9989%N] ++ lit " Successfully wrote "
                                  ++ str_of_int n ++ lit " characters to "
                                  ++ py_str path)])]))
          (fun e =>
             match exn_cls e with
             | PermissionError =>
                 Some (ret (error_response (-32603)
                              (lit "Permission denied: " ++ py_str path)))
             | _ => None
             end).

End Handlers.

Definition read_file (self : MCPFilesystemServer) : pyval -> M W pyval :=
  read_file_body (is_safe_path self).

Definition list_directory (self : MCPFilesystemServer) : pyval -> M W pyval :=
  list_directory_body (is_safe_path self).

Definition write_file (self : MCPFilesystemServer)
    : pyval -> pyval -> M W pyval :=
  write_file_body (is_safe_path self).

Definition call_tool (self : MCPFilesystemServer)
    (tool_name arguments : pyval) : M W pyval :=
  try_except
    (if eq_str tool_name (lit "read_file") then
       path <- lift (get arguments "path" PNone);;
       read_file self path
     else if eq_str tool_name (lit "list_directory") then
       path <- lift (get arguments "path" PNone);;
       list_directory self path
     else if eq_str tool_name (lit "write_file") then
       path <- lift (get arguments "path" PNone);;
       content <- lift (get arguments "content" PNone);;
       write_file self path content
     else
       ret (error_response (-32602)
              (lit "Unknown tool: " ++ py_str tool_name)))
    (fun e =>
       Some (ret (error_response (-32603)
                    (lit "Tool execution failed: " ++ exn_str e)))).

Definition handle_request (self : MCPFilesystemServer) (request : pyval)
    : M W pyval :=
  method <- lift (get request "method" PNone);;
  params <- lift (get request "params" (PDict []));;
  if eq_str method (lit "tools/list") then
    ret (PDict [(lit "tools", tools self)])
  else if eq_str method (lit "tools/call") then
    tool_name <- lift (get params "name" PNone);;
    arguments <- lift (get params "arguments" (PDict []));;
    call_tool self tool_name arguments
  else
    ret (error_response (-32601) (lit "Method not found: " ++ py_str method)).

(** One turn of the loop of [main], from the point where the input line
    has been parsed into [request]: the response that is printed. *)
Definition main_turn (self : MCPFilesystemServer) (request : pyval)
    : M W pyval :=
  try_except (handle_request self request)
    (fun e =>
       Some (ret (error_response (-32603)
                    (lit "Internal error: " ++ exn_str e)))).

(** The responses printed for a sequence of parsed requests. *)
Definition main_loop (self : MCPFilesystemServer) (requests : list pyval)
    : M W (list pyval) :=
  for_each (main_turn self) requests.

End Methods.

End Server.
Export Server.

(* ================================================================== *)
(** ** The transport loop *)

Module Transport.

(** What [json.loads(line.strip())] does with a line: it returns the
    parsed value, raises [json.JSONDecodeError], or raises another
    exception (a [RecursionError] on deep nesting, for instance). *)
Inductive parsed : Type :=
| Parsed (request : pyval)
| JSONDecodeError
| ParseFault (e : exn).

Definition parse_error_response : pyval :=
  error_response (-32700) (lit "Parse error: Invalid JSON").

Section Main.
Context {W : Type} {platform : Platform W}.

(** [json.loads] after [str.strip], as the library provides them. *)
Variable loads_stripped : str -> parsed.

(** The body of the loop of [main] for a line that was read and is not
    empty: the response it prints.  The output stream is taken to accept
    every line. *)
Definition main_iteration (server : MCPFilesystemServer) (line : str)
    : M W pyval :=
  match loads_stripped line with
  | Parsed request => main_turn server request
  | JSONDecodeError => ret parse_error_response
  | ParseFault e =>
      ret (error_response (-32603) (lit "Internal error: " ++ exn_str e))
  end.

(** [main], on the successive results of [sys.stdin.readline()]: a line,
    the empty string at the end of the input, or an exception (bytes that
    do not decode).  The result is the sequence of responses printed. *)
Fixpoint main (server : MCPFilesystemServer) (stdin : list (res str))
    : M W (list pyval) :=
  match stdin with
  | [] => ret []
  | Ok line :: rest =>
      if is_nil line then ret []
      else
        response <- main_iteration server line;;
        responses <- main server rest;;
        ret (response :: responses)
  | Raise e :: rest =>
      responses <- main server rest;;
      ret (error_response (-32603) (lit "Internal error: " ++ exn_str e)
           :: responses)
  end.

End Main.

End Transport.
Export Transport.

(* ================================================================== *)
(** ** An in-memory platform, to run the server on examples *)

Module MemFS.

(** A node of the tree, found by the literal path string it was stored
    under.  [Locked] answers every access with [PermissionError]. *)
Inductive node : Type :=
| File (content : str) (nbytes : Z)
| Dir (children : list str)
| Locked.

Record world : Type := {
  cwd : option str;
  nodes : list (str * node)
}.

Fixpoint find_node (l : list (str * node)) (p : str) : option node :=
  match l with
  | [] => None
  | (q, n) :: l' => if str_eqb q p then Some n else find_node l' p
  end.

Definition os_error (c : exn_class) (what : string) (p : str) : exn :=
  Exn c (lit what ++ lit ": '" ++ p ++ lit "'").

Definition not_a_path {A} (v : pyval) : res A :=
  Raise (Exn TypeError (lit "expected str, bytes or os.PathLike object, not "
                        ++ type_name v)).

Definition mem_getcwd (w : world) : res str :=
  match cwd w with
  | Some d => Ok d
  | None => Raise (Exn FileNotFoundError
                     (lit "[Errno 2] No such file or directory"))
  end.

Definition mem_read_text (w : world) (path : pyval) : res str :=
  match path with
  | PStr p =>
      match find_node (nodes w) p with
      | Some (File content _) => Ok content
      | Some (Dir _) => Raise (os_error OtherOSError "[Errno 21] Is a directory" p)
      | Some Locked => Raise (os_error PermissionError "[Errno 13] Permission denied" p)
      | None => Raise (os_error FileNotFoundError "[Errno 2] No such file or directory" p)
      end
  | _ => not_a_path path
  end.

Definition mem_listdir (w : world) (path : pyval) : res (list str) :=
  match path with
  | PStr p =>
      match find_node (nodes w) p with
      | Some (Dir children) => Ok children
      | Some (File _ _) => Raise (os_error OtherOSError "[Errno 20] Not a directory" p)
      | Some Locked => Raise (os_error PermissionError "[Errno 13] Permission denied" p)
      | None => Raise (os_error FileNotFoundError "[Errno 2] No such file or directory" p)
      end
  | _ => not_a_path path
  end.

Definition mem_isdir (w : world) (p : str) : bool :=
  match find_node (nodes w) p with
  | Some (Dir _) => true
  | _ => false
  end.

Definition mem_getsize (w : world) (p : str) : res Z :=
  match find_node (nodes w) p with
  | Some (File _ nbytes) => Ok nbytes
  | Some (Dir _) => Ok 4096%Z
  | Some Locked => Raise (os_error PermissionError "[Errno 13] Permission denied" p)
  | None => Raise (os_error FileNotFoundError "[Errno 2] No such file or directory" p)
  end.

Definition mem_makedirs (w : world) (p : str) : res unit * world :=
  match find_node (nodes w) p with
  | Some (Dir _) => (Ok tt, w)
  | Some _ => (Raise (os_error OtherOSError "[Errno 17] File exists" p), w)
  | None => (Ok tt, {| cwd := cwd w; nodes := (p, Dir []) :: nodes w |})
  end.

Definition mem_write_text (w : world) (path content : pyval)
    : res unit * world :=
  match path, content with
  | PStr p, PStr c =>
      match find_node (nodes w) p with
      | Some (Dir _) => (Raise (os_error OtherOSError "[Errno 21] Is a directory" p), w)
      | Some Locked => (Raise (os_error PermissionError "[Errno 13] Permission denied" p), w)
      | _ => (Ok tt,
              {| cwd := cwd w;
                 nodes := (p, File c (Z.of_nat (List.length c))) :: nodes w |})
      end
  | PStr _, _ =>
      (Raise (Exn TypeError (lit "write() argument must be str, not "
                             ++ type_name content)), w)
  | _, _ => (not_a_path path, w)
  end.

#[export] Instance mem_platform : Platform world := {|
  repr_other := fun v => lit "<" ++ type_name v ++ lit ">";
  os_getcwd := mem_getcwd;
  os_read_text := mem_read_text;
  os_listdir := mem_listdir;
  os_isdir := mem_isdir;
  os_getsize := mem_getsize;
  os_makedirs := mem_makedirs;
  os_write_text := mem_write_text
|}.

(** A small tree under [/srv/app]. *)
Definition demo_world : world := {|
  cwd := Some (lit "/srv/app");
  nodes := [
    (lit "/tmp/listing", Dir [lit "b.txt"; lit "a_dir"; lit "c.txt"]);
    (lit "/tmp/listing/b.txt", File (lit "bee") 3);
    (lit "/tmp/listing/a_dir", Dir []);
    (lit "/tmp/listing/c.txt", File (lit "sea!") 4);
    (lit "/tmp/hello.txt", File (lit "hello") 5);
    (lit "/tmp/secret", Locked);
    (lit "/tmpx/passwd", File (lit "root:x:0:0") 10) ]
|}.

Definition demo_server : MCPFilesystemServer := init (Some (lit "/home/ann")).

End MemFS.
Import MemFS.

(* ================================================================== *)
(** ** The vocabulary of the properties *)

(** [abspath] of a string in a process whose working directory is [cwd]. *)
Definition resolve (cwd p : str) : str :=
  if startswith p [sep] then normpath p else normpath (join cwd p).

(** The specification's test, in its own words: the resolved path equals
    the resolved root or has it as a strict path-segment prefix; paths are
    compared segment by segment. *)
Definition segments (p : str) : list str :=
  filter (fun c => negb (is_nil c)) (split sep p).

Fixpoint segment_prefix (root path : list str) : bool :=
  match root, path with
  | [], _ => true
  | r :: root', c :: path' => str_eqb r c && segment_prefix root' path'
  | _ :: _, [] => false
  end.

Definition is_safe_spec (cwd : str) (roots : list str) (p : str) : bool :=
  existsb (fun root =>
             segment_prefix (segments (resolve cwd root))
                            (segments (resolve cwd p)))
          roots.

(** The content arm: a [content] list, no [error] ([metadata] may come
    with it). *)
Definition content_arm (r : pyval) : Prop :=
  (exists blocks, field r "content" = Some (PList blocks))
  /\ field r "error" = None.

(** The error arm: an [error] with exactly a numeric [code] and a string
    [message], and neither [content] nor [metadata]. *)
Definition error_arm (r : pyval) : Prop :=
  (exists code message,
      field r "error"
      = Some (PDict [(lit "code", PInt code); (lit "message", PStr message)]))
  /\ field r "content" = None
  /\ field r "metadata" = None.

(** Exactly one arm is populated. *)
Definition one_arm (r : pyval) : Prop :=
  (content_arm r \/ error_arm r)
  /\ ~ (field r "content" <> None /\ field r "error" <> None).

(** The [name] of each descriptor of a catalog. *)
Definition descriptor_names (catalog : pyval) : list (option pyval) :=
  match catalog with
  | PList descriptors => map (fun d => field d "name") descriptors
  | _ => []
  end.

(** [x] does not sort after [y]: [not (key(y) < key(x))]. *)
Definition key_le (x y : entry) : Prop :=
  key_ltb (sort_key y) (sort_key x) = false.

(** The first component of the sort key. *)
Definition is_file (e : entry) : bool := str_eqb (type e) (lit "file").

(** Ascending order of the names: [not (name(y) < name(x))]. *)
Definition name_le (x y : entry) : Prop := str_ltb (name y) (name x) = false.

(** The entries of one kind, in the order the sorted list has them. *)
Definition of_kind (file : bool) (l : list entry) : list entry :=
  filter (fun e => Bool.eqb (is_file e) file) l.

(** What an entry of the listing of [p] says about the world it was
    collected in. *)
Definition entry_of {W : Type} {platform : Platform W}
    (w : W) (p : str) (en : entry) : Prop :=
  (os_isdir w (join p (name en)) = true
   /\ type en = lit "directory" /\ size en = 0%Z)
  \/ (os_isdir w (join p (name en)) = false
      /\ type en = lit "file"
      /\ os_getsize w (join p (name en)) = Ok (size en)).


(** The reads of [main] that come before the end of the input. *)
Fixpoint lines_before_eof (stdin : list (res str)) : list (res str) :=
  match stdin with
  | [] => []
  | Ok line :: rest =>
      if is_nil line then [] else Ok line :: lines_before_eof rest
  | Raise e :: rest => Raise e :: lines_before_eof rest
  end.

(** A stand-in for the JSON parser on the lines of the examples: it knows
    the [tools/list] request and takes any other line for malformed. *)
Definition quoted (s : string) : str := [34%N] ++ lit s ++ [34%N].

Definition tools_list_line : str :=
  lit "{" ++ quoted "method" ++ lit ": " ++ quoted "tools/list" ++ lit "}" ++ nl.

Definition demo_loads (line : str) : parsed :=
  if str_eqb line tools_list_line
  then Parsed (PDict [(lit "method", PStr (lit "tools/list"))])
  else JSONDecodeError.

(* ================================================================== *)
(** ** The model at work *)

Example normpath_trailing : normpath (lit "/tmp/") = lit "/tmp".
Proof. reflexivity. Qed.

Example normpath_dotdot : normpath (lit "/tmp/a/../../etc/./passwd") = lit "/etc/passwd".
Proof. reflexivity. Qed.

Example normpath_rel : normpath (lit "../a//b/") = lit "../a/b".
Proof. reflexivity. Qed.

Example dirname_ex : dirname (lit "test/x.txt") = lit "test".
Proof. reflexivity. Qed.

Example demo_read :
  fst (read_file demo_server (PStr (lit "/tmp/hello.txt")) demo_world)
  = Ok (PDict [(lit "content",
                PList [text_block (lit "Contents of /tmp/hello.txt:"
                                   ++ nl ++ nl ++ lit "hello")])]).
Proof. vm_compute. reflexivity. Qed.

(* ================================================================== *)
(** ** The path guard observes, and always answers *)

Section GuardFacts.
Context {W : Type} {platform : Platform W}.

Lemma abspath_keeps_world (path : pyval) (w : W) :
  snd (abspath path w) = w.
Proof.
  destruct path; try reflexivity.
  unfold abspath.
  destruct (startswith s [sep]); [reflexivity|].
  unfold bind, observe, ret.
  destruct (os_getcwd w); reflexivity.
Qed.

Lemma check_safe_paths_keeps_world (resolved : str) (roots : list str) (w : W) :
  snd (check_safe_paths resolved roots w) = w.
Proof.
  induction roots as [|root rest IH]; [reflexivity|].
  cbn [check_safe_paths]. unfold bind at 1.
  pose proof (abspath_keeps_world (PStr root) w) as Hw.
  destruct (abspath (PStr root) w) as [[r|e] w1]; cbn in Hw; subst w1.
  - destruct (startswith resolved r); [reflexivity | exact IH].
  - reflexivity.
Qed.

Lemma is_safe_path_answers (self : MCPFilesystemServer) (path : pyval) (w : W) :
  exists b, is_safe_path self path w = (Ok b, w).
Proof.
  unfold is_safe_path, try_except, bind.
  pose proof (abspath_keeps_world path w) as Hw.
  destruct (abspath path w) as [[r|e] w1]; cbn in Hw; subst w1.
  - pose proof (check_safe_paths_keeps_world r (safe_paths self) w) as Hc.
    destruct (check_safe_paths r (safe_paths self) w) as [[b|e] w2];
      cbn in Hc; subst w2.
    + now exists b.
    + now exists false.
  - now exists false.
Qed.

Lemma is_safe_path_keeps_world (self : MCPFilesystemServer) (path : pyval) (w : W) :
  snd (is_safe_path self path w) = w.
Proof.
  destruct (is_safe_path_answers self path w) as [b Hb].
  now rewrite Hb.
Qed.

(** C8.  [is_safe_path] never raises: on every server, argument and world
    it returns a boolean and leaves the world as it was; and whenever
    resolving the candidate path raises, whatever the exception, or
    resolving a configured root raises before a root has matched, the
    boolean is [False]. *)
Theorem is_safe_path_total (self : MCPFilesystemServer) (path : pyval) (w : W) :
  (exists b, is_safe_path self path w = (Ok b, w))
  /\ (forall e w', abspath path w = (Raise e, w') ->
      is_safe_path self path w = (Ok false, w))
  /\ (forall r e w' w'', abspath path w = (Ok r, w') ->
      check_safe_paths r (safe_paths self) w' = (Raise e, w'') ->
      is_safe_path self path w = (Ok false, w)).
Proof.
  split; [apply is_safe_path_answers|].
  split.
  - intros e w' He.
    pose proof (abspath_keeps_world path w) as Hw.
    rewrite He in Hw; cbn in Hw; subst w'.
    unfold is_safe_path, try_except, bind. now rewrite He.
  - intros r e w' w'' Hr Hc.
    pose proof (abspath_keeps_world path w) as Hw.
    rewrite Hr in Hw; cbn in Hw; subst w'.
    pose proof (check_safe_paths_keeps_world r (safe_paths self) w) as Hw.
    rewrite Hc in Hw; cbn in Hw; subst w''.
    unfold is_safe_path, try_except, bind. now rewrite Hr, Hc.
Qed.

End GuardFacts.

(** A path that is not a string cannot be resolved, and a server whose
    working directory is gone cannot resolve its relative roots: both are
    refused. *)
Lemma is_safe_path_total_witness :
  is_safe_path demo_server (PInt 5) demo_world = (Ok false, demo_world)
  /\ is_safe_path demo_server (PStr (lit "/tmp/hello.txt"))
       {| cwd := None; nodes := [] |}
     = (Ok false, {| cwd := None; nodes := [] |}).
Proof.
  split.
  - eapply (proj1 (proj2 (is_safe_path_total demo_server (PInt 5) demo_world))).
    vm_compute. reflexivity.
  - eapply (proj2 (proj2 (is_safe_path_total demo_server
                            (PStr (lit "/tmp/hello.txt"))
                            {| cwd := None; nodes := [] |}))).
    + vm_compute. reflexivity.
    + vm_compute. reflexivity.
Defined.

(* ================================================================== *)
(** ** Argument checks come first *)

Section ArgumentChecks.
Context {W : Type} {platform : Platform W}.

(** C10.  In each of the three handlers an absent path ([None]) and an
    empty path are answered alike, with code -32602 and the same message,
    whatever the guard bound to [self.is_safe_path] would do and whatever
    the world is: the guard is not called, the world is untouched, and the
    two responses are equal.  This holds in particular for the methods of
    the class, whose guard is [is_safe_path self]. *)
Theorem empty_path_rejected_before_guard
    (guard : pyval -> M W bool) (self : MCPFilesystemServer)
    (content : pyval) (w : W) :
  let required := error_response (-32602) (lit "Path is required") in
  let both_required :=
    error_response (-32602) (lit "Path and content are required") in
  (read_file_body guard PNone w = (Ok required, w)
   /\ read_file_body guard (PStr []) w = (Ok required, w))
  /\ (list_directory_body guard PNone w = (Ok required, w)
      /\ list_directory_body guard (PStr []) w = (Ok required, w))
  /\ (write_file_body guard PNone content w = (Ok both_required, w)
      /\ write_file_body guard (PStr []) content w = (Ok both_required, w))
  /\ (read_file self PNone w = read_file self (PStr []) w
      /\ list_directory self PNone w = list_directory self (PStr []) w
      /\ write_file self PNone content w = write_file self (PStr []) content w).
Proof.
  cbv zeta. repeat split; reflexivity.
Qed.

End ArgumentChecks.

(* ================================================================== *)
(** ** What the guard computes *)

Section GuardComputes.
Context {W : Type} {platform : Platform W}.

Lemma abspath_absolute (p : str) (w : W) :
  startswith p [sep] = true -> abspath (PStr p) w = (Ok (normpath p), w).
Proof.
  intros Habs. unfold abspath. now rewrite Habs.
Qed.

Lemma abspath_resolve (cwd p : str) (w : W) :
  os_getcwd w = Ok cwd -> abspath (PStr p) w = (Ok (resolve cwd p), w).
Proof.
  intros Hcwd. unfold abspath, resolve.
  destruct (startswith p [sep]); [reflexivity|].
  unfold bind, observe, ret. now rewrite Hcwd.
Qed.

Lemma check_safe_paths_existsb (cwd resolved : str) (roots : list str) (w : W) :
  os_getcwd w = Ok cwd ->
  check_safe_paths resolved roots w
  = (Ok (existsb (fun root => startswith resolved (resolve cwd root)) roots), w).
Proof.
  intros Hcwd.
  induction roots as [|root rest IH]; [reflexivity|].
  cbn [check_safe_paths existsb]. unfold bind at 1.
  rewrite (abspath_resolve root w Hcwd).
  destruct (startswith resolved (resolve cwd root)); [reflexivity | exact IH].
Qed.

(** With a working directory, the verdict is a raw string-prefix test of
    the resolved path against each resolved root. *)
Lemma is_safe_path_existsb (self : MCPFilesystemServer) (cwd p : str) (w : W) :
  os_getcwd w = Ok cwd ->
  is_safe_path self (PStr p) w
  = (Ok (existsb (fun root => startswith (resolve cwd p) (resolve cwd root))
                 (safe_paths self)), w).
Proof.
  intros Hcwd. unfold is_safe_path, try_except, bind.
  rewrite (abspath_resolve p w Hcwd).
  now rewrite (check_safe_paths_existsb (resolve cwd p) (safe_paths self) w Hcwd).
Qed.

(** C1 (the code departs from it).  With [/tmp/x] as the only configured
    root, [is_safe_path("/tmp/xyz")] answers [True] in every world: the
    test is [startswith] on the resolved strings.  The segment-wise test
    the specification words refuses the same path. *)
Theorem is_safe_path_prefix_confusion (catalog : pyval) (w : W) :
  let self := {| tools := catalog; safe_paths := [lit "/tmp/x"] |} in
  is_safe_path self (PStr (lit "/tmp/xyz")) w = (Ok true, w)
  /\ (forall cwd, is_safe_spec cwd (safe_paths self) (lit "/tmp/xyz") = false).
Proof.
  cbv zeta. split.
  - unfold is_safe_path, try_except, bind.
    rewrite abspath_absolute by reflexivity.
    cbn [safe_paths check_safe_paths]. unfold bind.
    rewrite abspath_absolute by reflexivity.
    reflexivity.
  - intros cwd. reflexivity.
Qed.

(** The same holds for the roots the constructor configures: a sibling of
    [/tmp] whose name starts with [tmp] passes the guard. *)
Lemma default_roots_accept_tmp_sibling (home : option str) (cwd : str) (w : W) :
  os_getcwd w = Ok cwd ->
  is_safe_path (init home) (PStr (lit "/tmpx/passwd")) w = (Ok true, w).
Proof.
  intros Hcwd. rewrite (is_safe_path_existsb _ _ w Hcwd).
  do 2 f_equal.
  cbn [init safe_paths existsb].
  change (resolve cwd (lit "/tmpx/passwd")) with (lit "/tmpx/passwd").
  change (resolve cwd (lit "/tmp/")) with (lit "/tmp").
  change (startswith (lit "/tmpx/passwd") (lit "/tmp")) with true.
  now rewrite !orb_true_r.
Qed.

(** C9.  The verdict depends on the working directory of the process at
    the time of the call.  The constructor's first three roots are
    relative, whatever the home directory; [is_safe_path] resolves them
    with [abspath] on each call; so one server and one path string get
    [True] in a process whose working directory is [/srv/app] and [False]
    in one whose working directory is [/opt]. *)
Theorem guard_depends_on_cwd (w1 w2 : W) :
  os_getcwd w1 = Ok (lit "/srv/app") ->
  os_getcwd w2 = Ok (lit "/opt") ->
  let self := init (Some (lit "/home/ann")) in
  let path := PStr (lit "/srv/app/demos/notes.md") in
  (forall home,
     firstn 3 (safe_paths (init home)) = [lit "demos/"; lit "test/"; lit "docs/"]
     /\ forallb (fun root => negb (startswith root [sep]))
                (firstn 3 (safe_paths (init home))) = true)
  /\ is_safe_path self path w1 = (Ok true, w1)
  /\ is_safe_path self path w2 = (Ok false, w2).
Proof.
  intros H1 H2. cbv zeta. split; [|split].
  - intros home. split; reflexivity.
  - rewrite (is_safe_path_existsb _ _ w1 H1). reflexivity.
  - rewrite (is_safe_path_existsb _ _ w2 H2). reflexivity.
Qed.

End GuardComputes.

Lemma guard_depends_on_cwd_witness :
  let w1 := {| cwd := Some (lit "/srv/app"); nodes := nodes demo_world |} in
  let w2 := {| cwd := Some (lit "/opt"); nodes := nodes demo_world |} in
  fst (is_safe_path demo_server (PStr (lit "/srv/app/demos/notes.md")) w1) = Ok true
  /\ fst (is_safe_path demo_server (PStr (lit "/srv/app/demos/notes.md")) w2) = Ok false.
Proof.
  cbv zeta.
  destruct (@guard_depends_on_cwd world mem_platform
              {| cwd := Some (lit "/srv/app"); nodes := nodes demo_world |}
              {| cwd := Some (lit "/opt"); nodes := nodes demo_world |}
              eq_refl eq_refl) as [_ [Ha Hb]].
  unfold demo_server. rewrite Ha, Hb. split; reflexivity.
Defined.

(* ================================================================== *)
(** ** The handlers *)

(** Unfolds the monad, so that a method body becomes a tree of matches. *)
Ltac run_body :=
  unfold bind, ret, lift, observe, raise, try_except in *.

(** Splits on the first scrutinee of the goal or of a hypothesis. *)
Ltac split_match :=
  match goal with
  | |- context [match ?x with _ => _ end] => destruct x eqn:?
  | H : context [match ?x with _ => _ end] |- _ => destruct x eqn:?
  end.

Lemma contains_prefix (x rest : str) : contains (x ++ rest) x.
Proof. exists [], rest. reflexivity. Qed.

Lemma contains_suffix (pre x : str) : contains (pre ++ x) x.
Proof. exists pre, []. now rewrite app_nil_r. Qed.

Lemma contains_extend (pre s x : str) : contains s x -> contains (pre ++ s) x.
Proof.
  intros [a [b ->]]. exists (pre ++ a), b. now rewrite <- app_assoc.
Qed.

Section ReadFile.
Context {W : Type} {platform : Platform W}.

(** C5.  [read_file]: an absent or empty path is answered with -32602
    "Path is required"; a path that passes the guard but whose file is
    absent ([open] raises [FileNotFoundError]) is answered with -32603 and
    the message "File not found: <path>", which contains the path as it
    was given; and a successful read is answered with one text block,
    "Contents of <path>:", an empty line, then the contents. *)
Theorem read_file_contract (self : MCPFilesystemServer) (p : str) (w : W) :
  (read_file self PNone w
     = (Ok (error_response (-32602) (lit "Path is required")), w)
   /\ read_file self (PStr []) w
     = (Ok (error_response (-32602) (lit "Path is required")), w))
  /\ (p <> [] ->
      is_safe_path self (PStr p) w = (Ok true, w) ->
      (forall e, os_read_text w (PStr p) = Raise e ->
                 exn_cls e = FileNotFoundError ->
                 read_file self (PStr p) w
                 = (Ok (error_response (-32603) (lit "File not found: " ++ p)), w)
                 /\ contains (lit "File not found: " ++ p) (lit "File not found")
                 /\ contains (lit "File not found: " ++ p) p)
      /\ (forall content, os_read_text w (PStr p) = Ok content ->
                 read_file self (PStr p) w
                 = (Ok (PDict [(lit "content",
                                PList [PDict [(lit "type", PStr (lit "text"));
                                              (lit "text",
                                               PStr (lit "Contents of " ++ p
                                                     ++ lit ":" ++ nl ++ nl
                                                     ++ content))]])]),
                    w))).
Proof.
  split; [split; reflexivity|].
  intros Hp Hsafe.
  assert (Htruthy : truthy (PStr p) = true) by (destruct p; [easy | reflexivity]).
  split.
  - intros e Hraise Hcls. split; [|split].
    + unfold read_file, read_file_body. rewrite Htruthy. cbn [negb].
      run_body. rewrite Hsafe. cbn [negb]. rewrite Hraise, Hcls. reflexivity.
    + change (lit "File not found: ") with (lit "File not found" ++ lit ": ").
      rewrite <- app_assoc. apply contains_prefix.
    + apply contains_suffix.
  - intros content Hread.
    unfold read_file, read_file_body. rewrite Htruthy. cbn [negb].
    run_body. rewrite Hsafe. cbn [negb]. rewrite Hread. reflexivity.
Qed.

End ReadFile.

Lemma read_file_contract_witness :
  fst (read_file demo_server (PStr (lit "/tmp/nothere")) demo_world)
    = Ok (error_response (-32603) (lit "File not found: /tmp/nothere"))
  /\ fst (read_file demo_server (PStr (lit "/tmp/hello.txt")) demo_world)
    = Ok (PDict [(lit "content",
                  PList [text_block (lit "Contents of /tmp/hello.txt:"
                                     ++ nl ++ nl ++ lit "hello")])]).
Proof.
  split.
  - destruct (proj2 (@read_file_contract world mem_platform demo_server
                       (lit "/tmp/nothere") demo_world)) as [Habsent _].
    + discriminate.
    + vm_compute. reflexivity.
    + destruct (Habsent _ eq_refl eq_refl) as [Hr _].
      rewrite Hr. reflexivity.
  - destruct (proj2 (@read_file_contract world mem_platform demo_server
                       (lit "/tmp/hello.txt") demo_world)) as [_ Hread].
    + discriminate.
    + vm_compute. reflexivity.
    + rewrite (Hread _ eq_refl). reflexivity.
Defined.

Section WriteFile.
Context {W : Type} {platform : Platform W}.


End WriteFile.


Example call_write_file_empty_content :
  call_tool demo_server (PStr (lit "write_file"))
    (PDict [(lit "path", PStr (lit "test/x.txt")); (lit "content", PStr [])])
    demo_world
  = (Ok (PDict [(lit "content",
                 PList [text_block
                          (confirmation_text (PStr (lit "test/x.txt")) 0)]);
                (lit "metadata", confirmation_metadata)]),
     demo_world).
Proof. vm_compute. reflexivity. Qed.

(** A content without a length (here an [int]) makes the f-string raise
    [TypeError] after the guard has passed; the dispatcher reports it, and
    nothing is written either. *)
Example call_write_file_int_content :
  call_tool demo_server (PStr (lit "write_file"))
    (PDict [(lit "path", PStr (lit "test/x.txt")); (lit "content", PInt 5)])
    demo_world
  = (Ok (error_response (-32603)
           (lit "Tool execution failed: object of type 'int' has no len()")),
     demo_world).
Proof. vm_compute. reflexivity. Qed.

(* ================================================================== *)
(** ** The dispatcher *)

Lemma str_eqb_eq (a b : str) : str_eqb a b = true <-> a = b.
Proof.
  revert b. induction a as [|x a IH]; intros [|y b]; cbn; try easy.
  rewrite andb_true_iff, N.eqb_eq, IH.
  split; [intros [-> ->]; reflexivity | intros [= -> ->]; easy].
Qed.

Lemma eq_str_false (v : pyval) (s : str) : v <> PStr s -> eq_str v s = false.
Proof.
  intros Hne. destruct v; try reflexivity. cbn.
  destruct (str_eqb s0 s) eqn:E; [|reflexivity].
  apply str_eqb_eq in E. now subst.
Qed.

Section CallTool.
Context {W : Type} {platform : Platform W}.

Lemma call_tool_answers (self : MCPFilesystemServer)
    (tool_name arguments : pyval) (w : W) :
  exists r w', call_tool self tool_name arguments w = (Ok r, w').
Proof.
  unfold call_tool, try_except.
  match goal with |- context [match ?body with _ => _ end] =>
    destruct body as [[r|e] w'] end.
  - now exists r, w'.
  - eexists _, w'. reflexivity.
Qed.

(** C3.  [call_tool] never raises: on every tool name, argument value and
    world it returns a response.  A name other than the three tools gets
    an error response with code -32602; and when the handler of a known
    tool raises an exception [e], the response is an error with code
    -32603 whose message ends with [str(e)]. *)
Theorem call_tool_never_raises (self : MCPFilesystemServer)
    (tool_name arguments : pyval) (w : W) :
  (exists r w', call_tool self tool_name arguments w = (Ok r, w'))
  /\ (tool_name <> PStr (lit "read_file") ->
      tool_name <> PStr (lit "list_directory") ->
      tool_name <> PStr (lit "write_file") ->
      call_tool self tool_name arguments w
      = (Ok (error_response (-32602)
               (lit "Unknown tool: " ++ py_str tool_name)), w))
  /\ (forall path content e w',
        get arguments "path" PNone = Ok path ->
        get arguments "content" PNone = Ok content ->
        (tool_name = PStr (lit "read_file")
         /\ read_file self path w = (Raise e, w'))
        \/ (tool_name = PStr (lit "list_directory")
            /\ list_directory self path w = (Raise e, w'))
        \/ (tool_name = PStr (lit "write_file")
            /\ write_file self path content w = (Raise e, w')) ->
        call_tool self tool_name arguments w
        = (Ok (error_response (-32603)
                 (lit "Tool execution failed: " ++ exn_str e)), w')
        /\ contains (lit "Tool execution failed: " ++ exn_str e) (exn_str e)).
Proof.
  split; [apply call_tool_answers|]. split.
  - intros H1 H2 H3. unfold call_tool, try_except.
    now rewrite (eq_str_false H1), (eq_str_false H2), (eq_str_false H3).
  - intros path content e w' Hpath Hcontent Hraise.
    split; [|apply contains_suffix].
    unfold call_tool, try_except.
    destruct Hraise as [[-> Hr] | [[-> Hr] | [-> Hr]]].
    + change (eq_str (PStr (lit "read_file")) (lit "read_file")) with true.
      cbv iota. unfold bind, lift. now rewrite Hpath, Hr.
    + change (eq_str (PStr (lit "list_directory")) (lit "read_file")) with false.
      change (eq_str (PStr (lit "list_directory")) (lit "list_directory")) with true.
      cbv iota. unfold bind, lift. now rewrite Hpath, Hr.
    + change (eq_str (PStr (lit "write_file")) (lit "read_file")) with false.
      change (eq_str (PStr (lit "write_file")) (lit "list_directory")) with false.
      change (eq_str (PStr (lit "write_file")) (lit "write_file")) with true.
      cbv iota. unfold bind, lift. now rewrite Hpath, Hcontent, Hr.
Qed.

End CallTool.

(** An unknown tool, and a known tool whose handler raises: reading a
    directory makes [open] raise [IsADirectoryError], which [read_file]
    does not catch. *)
Lemma call_tool_never_raises_witness :
  call_tool demo_server (PStr (lit "bogus_tool")) (PDict []) demo_world
    = (Ok (error_response (-32602) (lit "Unknown tool: bogus_tool")), demo_world)
  /\ call_tool demo_server (PStr (lit "read_file"))
       (PDict [(lit "path", PStr (lit "/tmp/listing"))]) demo_world
    = (Ok (error_response (-32603)
             (lit "Tool execution failed: [Errno 21] Is a directory: '/tmp/listing'")),
       demo_world).
Proof.
  split.
  - apply (proj1 (proj2 (@call_tool_never_raises world mem_platform demo_server
                           (PStr (lit "bogus_tool")) (PDict []) demo_world)));
      discriminate.
  - refine (proj1 (proj2 (proj2 (@call_tool_never_raises world mem_platform
                                    demo_server (PStr (lit "read_file"))
                                    (PDict [(lit "path", PStr (lit "/tmp/listing"))])
                                    demo_world))
                     (PStr (lit "/tmp/listing")) PNone
                     (os_error OtherOSError "[Errno 21] Is a directory"
                        (lit "/tmp/listing"))
                     demo_world eq_refl eq_refl
                     (or_introl (conj eq_refl _)))).
    vm_compute. reflexivity.
Defined.

(* ================================================================== *)
(** ** The shape of a response *)

Lemma error_response_one_arm (code : Z) (message : str) :
  one_arm (error_response code message).
Proof.
  split.
  - right. split; [now exists code, message | split; reflexivity].
  - intros [Hc _]. now apply Hc.
Qed.

Lemma content_response_one_arm (blocks : list pyval) (rest : list (str * pyval)) :
  lookup rest (lit "error") = None ->
  one_arm (PDict ((lit "content", PList blocks) :: rest)).
Proof.
  intros Hrest. split.
  - left. split; [now exists blocks | exact Hrest].
  - intros [_ He]. now apply He.
Qed.

Create HintDb arms.
#[local] Hint Resolve error_response_one_arm : arms.
#[local] Hint Extern 1 (one_arm (PDict ((_, PList _) :: _))) =>
  apply content_response_one_arm; reflexivity : arms.

Section Arms.
Context {W : Type} {platform : Platform W}.
Variable guard : pyval -> M W bool.

(** Closes a goal [one_arm r] once the body has been split down to the
    response it returns. *)
Ltac arm_cases :=
  run_body; cbv beta iota in *;
  repeat (split_match; cbv beta iota in *; try discriminate);
  repeat match goal with
         | H : Some _ = Some _ |- _ => inversion H; subst; clear H
         | H : (_, _) = (_, _) |- _ => inversion H; subst; clear H
         | H : ?m _ = (Ok _, _) |- _ => progress cbv beta in H
         end;
  unfold access_denied; auto with arms.

Lemma read_file_body_one_arm (path : pyval) (w w' : W) (r : pyval) :
  read_file_body guard path w = (Ok r, w') -> one_arm r.
Proof.
  unfold read_file_body. intros H. arm_cases.
Qed.

Lemma list_directory_body_one_arm (path : pyval) (w w' : W) (r : pyval) :
  list_directory_body guard path w = (Ok r, w') -> one_arm r.
Proof.
  unfold list_directory_body. intros H. arm_cases.
Qed.

Lemma write_file_body_one_arm (path content : pyval) (w w' : W) (r : pyval) :
  write_file_body guard path content w = (Ok r, w') -> one_arm r.
Proof.
  unfold write_file_body. cbv zeta. intros H. arm_cases.
Qed.

End Arms.

Section Responses.
Context {W : Type} {platform : Platform W}.

Lemma call_tool_one_arm (self : MCPFilesystemServer)
    (tool_name arguments : pyval) (w w' : W) (r : pyval) :
  call_tool self tool_name arguments w = (Ok r, w') -> one_arm r.
Proof.
  unfold call_tool, try_except.
  match goal with |- context [match ?body with _ => _ end] =>
    destruct body as [[r0|e] w0] eqn:Hbody end.
  2: { intros [= <- _]. apply error_response_one_arm. }
  intros [= -> ->].
  repeat split_match.
  - unfold bind, lift in Hbody.
    destruct (get arguments "path" PNone); [|discriminate].
    eapply read_file_body_one_arm, Hbody.
  - unfold bind, lift in Hbody.
    destruct (get arguments "path" PNone); [|discriminate].
    eapply list_directory_body_one_arm, Hbody.
  - unfold bind, lift in Hbody.
    destruct (get arguments "path" PNone); [|discriminate].
    destruct (get arguments "content" PNone); [|discriminate].
    eapply write_file_body_one_arm, Hbody.
  - injection Hbody as <- _. apply error_response_one_arm.
Qed.

(** C4.  Every response of the three handlers and of [call_tool]
    populates exactly one arm: it carries a [content] list (with or
    without [metadata]) and no [error], or an [error] made of a [code] and
    a [message] and neither [content] nor [metadata]; it never carries
    both [content] and [error].  The same holds for what [handle_request]
    returns for a method other than [tools/list], whose answer is the
    catalog and not a response of this shape. *)
Theorem responses_one_arm (self : MCPFilesystemServer) :
  (forall path w w' r,
      read_file self path w = (Ok r, w') -> one_arm r)
  /\ (forall path w w' r,
      list_directory self path w = (Ok r, w') -> one_arm r)
  /\ (forall path content w w' r,
      write_file self path content w = (Ok r, w') -> one_arm r)
  /\ (forall tool_name arguments w w' r,
      call_tool self tool_name arguments w = (Ok r, w') -> one_arm r)
  /\ (forall request method w w' r,
      get request "method" PNone = Ok method ->
      method <> PStr (lit "tools/list") ->
      handle_request self request w = (Ok r, w') -> one_arm r)
  /\ (forall code message, error_arm (error_response code message)).
Proof.
  split; [|split; [|split; [|split; [|split]]]].
  - intros path w w' r. apply read_file_body_one_arm.
  - intros path w w' r. apply list_directory_body_one_arm.
  - intros path content w w' r. apply write_file_body_one_arm.
  - intros tool_name arguments w w' r. apply call_tool_one_arm.
  - intros request method w w' r Hmethod Hne.
    unfold handle_request, bind, lift. rewrite Hmethod.
    rewrite (eq_str_false Hne).
    destruct (get request "params" (PDict [])) as [params|]; [|discriminate].
    destruct (eq_str method (lit "tools/call")).
    + destruct (get params "name" PNone); [|discriminate].
      destruct (get params "arguments" (PDict [])); [|discriminate].
      apply call_tool_one_arm.
    + intros [= <- _]. apply error_response_one_arm.
  - intros code message. split; [now exists code, message | split; reflexivity].
Qed.

End Responses.

(** A refused path answers on the error arm, a confirmation request on the
    content arm. *)
Lemma responses_one_arm_witness :
  one_arm (access_denied (PStr (lit "/etc/passwd")))
  /\ one_arm (PDict [(lit "content",
                      PList [text_block
                               (confirmation_text (PStr (lit "test/x.txt")) 0)]);
                     (lit "metadata", confirmation_metadata)]).
Proof.
  split.
  - apply (proj1 (@responses_one_arm world mem_platform demo_server)
             (PStr (lit "/etc/passwd")) demo_world demo_world).
    vm_compute. reflexivity.
  - apply (proj1 (proj2 (proj2 (proj2
             (@responses_one_arm world mem_platform demo_server))))
             (PStr (lit "write_file"))
             (PDict [(lit "path", PStr (lit "test/x.txt")); (lit "content", PStr [])])
             demo_world demo_world).
    vm_compute. reflexivity.
Defined.

(* ================================================================== *)
(** ** The catalog *)

Section Catalog.
Context {W : Type} {platform : Platform W}.

Lemma main_turn_answers (self : MCPFilesystemServer) (request : pyval) (w : W) :
  exists r w', main_turn self request w = (Ok r, w').
Proof.
  unfold main_turn, try_except.
  destruct (handle_request self request w) as [[r|e] w'].
  - now exists r, w'.
  - eexists _, w'. reflexivity.
Qed.

Lemma for_each_app (A B : Type) (f : A -> M W B) (l1 l2 : list A) (w : W) :
  for_each f (l1 ++ l2) w
  = match for_each f l1 w with
    | (Ok ys1, w1) =>
        match for_each f l2 w1 with
        | (Ok ys2, w2) => (Ok (ys1 ++ ys2), w2)
        | (Raise e, w2) => (Raise e, w2)
        end
    | (Raise e, w1) => (Raise e, w1)
    end.
Proof.
  revert w. induction l1 as [|x l1 IH]; intros w; cbn [for_each app].
  - unfold ret. destruct (for_each f l2 w) as [[ys2|e] w2]; reflexivity.
  - unfold bind, ret.
    destruct (f x w) as [[y|e] w0]; [|reflexivity].
    rewrite IH.
    destruct (for_each f l1 w0) as [[ys1|e] w1]; [|reflexivity].
    destruct (for_each f l2 w1) as [[ys2|e] w2]; reflexivity.
Qed.

Lemma main_loop_answers (self : MCPFilesystemServer) (requests : list pyval) (w : W) :
  exists rs w', main_loop self requests w = (Ok rs, w')
                /\ List.length rs = List.length requests.
Proof.
  unfold main_loop. revert w.
  induction requests as [|request rest IH]; intros w; cbn [for_each].
  - now exists [], w.
  - unfold bind at 1.
    destruct (main_turn_answers self request w) as [r [w0 ->]].
    unfold bind at 1.
    destruct (IH w0) as [rs [w1 [-> Hlen]]].
    exists (r :: rs), w1. split; [reflexivity | cbn; now rewrite Hlen].
Qed.

(** C7.  [tools/list] always succeeds and returns the three descriptors
    [read_file], [list_directory], [write_file], in this order: in every
    world [handle_request] answers a request whose method is [tools/list]
    with the catalog the constructor built, and so does the main loop
    after any sequence of earlier requests, whatever they were and
    whatever they answered. *)
Theorem tools_list_fixed (home : option str) (request : pyval) :
  get request "method" PNone = Ok (PStr (lit "tools/list")) ->
  let self := init home in
  let answer := PDict [(lit "tools", tools self)] in
  descriptor_names (tools self)
  = [Some (PStr (lit "read_file")); Some (PStr (lit "list_directory"));
     Some (PStr (lit "write_file"))]
  /\ (forall w : W, handle_request self request w = (Ok answer, w))
  /\ (forall (history : list pyval) (w : W),
        exists rs w',
          main_loop self (history ++ [request]) w = (Ok (rs ++ [answer]), w')
          /\ List.length rs = List.length history).
Proof.
  intros Hmethod self answer.
  assert (Hone : forall w : W, handle_request self request w = (Ok answer, w)).
  { intros w. unfold handle_request, bind, lift. rewrite Hmethod.
    destruct request; try discriminate. reflexivity. }
  split; [reflexivity|]. split; [exact Hone|].
  intros history w. unfold main_loop. rewrite for_each_app.
  destruct (main_loop_answers self history w) as [rs [w1 [Hrs Hlen]]].
  unfold main_loop in Hrs. rewrite Hrs.
  exists rs, w1. split; [|exact Hlen].
  cbn [for_each]. unfold bind, ret, main_turn, try_except.
  now rewrite Hone.
Qed.

End Catalog.

(** After a write request, a read of a missing file and a malformed
    request, [tools/list] still answers the catalog. *)
Lemma tools_list_fixed_witness :
  exists rs w',
    main_loop demo_server
      ([PDict [(lit "method", PStr (lit "tools/call"));
               (lit "params",
                PDict [(lit "name", PStr (lit "write_file"));
                       (lit "arguments",
                        PDict [(lit "path", PStr (lit "/tmp/new.txt"));
                               (lit "content", PStr (lit "x"))])])];
        PDict [(lit "method", PStr (lit "tools/call"));
               (lit "params",
                PDict [(lit "name", PStr (lit "read_file"));
                       (lit "arguments",
                        PDict [(lit "path", PStr (lit "/tmp/nothere"))])])];
        PInt 7]
       ++ [PDict [(lit "method", PStr (lit "tools/list"))]])
      demo_world
    = (Ok (rs ++ [PDict [(lit "tools", tools demo_server)]]), w')
    /\ List.length rs = 3%nat.
Proof.
  apply (proj2 (proj2 (@tools_list_fixed world mem_platform
                         (Some (lit "/home/ann"))
                         (PDict [(lit "method", PStr (lit "tools/list"))])
                         eq_refl))).
Defined.

(* ================================================================== *)
(** ** The order of a listing *)

Module StrOrder.

Lemma ltb_irrefl (a : str) : str_ltb a a = false.
Proof.
  induction a as [|x a IH]; [reflexivity|].
  cbn. now rewrite N.ltb_irrefl, N.eqb_refl.
Qed.

Lemma ltb_trans (a b c : str) :
  str_ltb a b = true -> str_ltb b c = true -> str_ltb a c = true.
Proof.
  revert b c. induction a as [|x a IH]; intros [|y b] [|z c]; cbn; try easy.
  destruct (N.ltb_spec x y), (N.eqb_spec x y), (N.ltb_spec y z),
    (N.eqb_spec y z), (N.ltb_spec x z), (N.eqb_spec x z);
    try easy; try lia.
  apply IH.
Qed.

Lemma ltb_asym (a b : str) : str_ltb a b = true -> str_ltb b a = false.
Proof.
  intros Hab. destruct (str_ltb b a) eqn:Hba; [|reflexivity].
  pose proof (ltb_trans _ _ _ Hab Hba) as Haa.
  now rewrite ltb_irrefl in Haa.
Qed.

Lemma ltb_connex (a b : str) :
  str_ltb a b = false -> str_ltb b a = false -> a = b.
Proof.
  revert b. induction a as [|x a IH]; intros [|y b]; cbn; try easy.
  destruct (N.ltb_spec x y), (N.eqb_spec x y), (N.ltb_spec y x),
    (N.eqb_spec y x); try easy; try lia.
  intros Hab Hba. subst y. f_equal. now apply IH.
Qed.

(** [a <= b], that is [not (b < a)], is transitive. *)
Lemma le_trans (a b c : str) :
  str_ltb b a = false -> str_ltb c b = false -> str_ltb c a = false.
Proof.
  intros Hab Hbc. destruct (str_ltb c a) eqn:Hca; [|reflexivity].
  destruct (str_ltb a b) eqn:Hab'.
  - now rewrite (ltb_trans _ _ _ Hca Hab') in Hbc.
  - rewrite (ltb_connex _ _ Hab' Hab) in Hca. now rewrite Hca in Hbc.
Qed.

End StrOrder.

Lemma key_le_total (x y : entry) :
  key_ltb (sort_key y) (sort_key x) = true -> key_le y x.
Proof.
  unfold key_le, key_ltb, sort_key. cbn [fst snd].
  destruct (str_eqb (type x) (lit "file")), (str_eqb (type y) (lit "file"));
    cbn; try easy.
  all: apply StrOrder.ltb_asym.
Qed.

Lemma key_le_trans (x y z : entry) : key_le x y -> key_le y z -> key_le x z.
Proof.
  unfold key_le, key_ltb, sort_key. cbn [fst snd].
  destruct (str_eqb (type x) (lit "file")), (str_eqb (type y) (lit "file")),
    (str_eqb (type z) (lit "file")); cbn; try easy.
  all: apply StrOrder.le_trans.
Qed.

(** Under [key_le] a file comes after every directory, and two entries
    of the same kind come in the order of their names. *)
Lemma key_le_kinds (x y : entry) :
  key_le x y -> (is_file x = true -> is_file y = true)
                /\ (is_file x = is_file y -> name_le x y).
Proof.
  unfold key_le, key_ltb, sort_key, is_file, name_le. cbn [fst snd].
  destruct (str_eqb (type x) (lit "file")), (str_eqb (type y) (lit "file"));
    cbn; try easy.
Qed.

Lemma insert_entry_perm (x : entry) (l : list entry) :
  Permutation (x :: l) (insert_entry x l).
Proof.
  induction l as [|y l IH]; cbn; [reflexivity|].
  destruct (key_ltb (sort_key y) (sort_key x)); [|reflexivity].
  rewrite perm_swap. now apply perm_skip.
Qed.

Lemma sort_entries_perm (l : list entry) : Permutation l (sort_entries l).
Proof.
  induction l as [|x l IH]; cbn; [reflexivity|].
  rewrite <- insert_entry_perm. now apply perm_skip.
Qed.

Lemma insert_entry_sorted (x : entry) (l : list entry) :
  StronglySorted key_le l -> StronglySorted key_le (insert_entry x l).
Proof.
  induction 1 as [|y l Hsorted IH Hall]; cbn.
  - constructor; constructor.
  - destruct (key_ltb (sort_key y) (sort_key x)) eqn:Hyx.
    + constructor; [exact IH|].
      apply (Permutation_Forall (insert_entry_perm x l)).
      constructor; [now apply key_le_total | exact Hall].
    + constructor; [now constructor|].
      constructor; [exact Hyx|].
      eapply Forall_impl; [|exact Hall].
      intros z Hyz. now apply key_le_trans with y.
Qed.

Lemma sort_entries_sorted (l : list entry) : StronglySorted key_le (sort_entries l).
Proof.
  induction l as [|x l IH]; cbn; [constructor | now apply insert_entry_sorted].
Qed.

Lemma of_kind_sorted (file : bool) (l : list entry) :
  StronglySorted key_le l -> StronglySorted name_le (of_kind file l).
Proof.
  induction 1 as [|x l Hsorted IH Hall]; cbn; [constructor|].
  destruct (Bool.eqb (is_file x) file) eqn:Hx; [|exact IH].
  constructor; [exact IH|].
  apply Forall_forall. intros z Hz.
  apply filter_In in Hz. destruct Hz as [Hin Hkind].
  rewrite Forall_forall in Hall.
  apply (key_le_kinds (Hall z Hin)).
  apply eqb_prop in Hx, Hkind. congruence.
Qed.

Lemma all_files_split (l : list entry) :
  Forall (fun e => is_file e = true) l ->
  of_kind false l = [] /\ of_kind true l = l.
Proof.
  induction 1 as [|x l Hx Hall [IH1 IH2]]; cbn; [easy|].
  rewrite Hx. cbn. split; [exact IH1 | now f_equal].
Qed.

(** A list sorted by the key is its directories followed by its files. *)
Lemma sorted_dirs_then_files (l : list entry) :
  StronglySorted key_le l -> l = of_kind false l ++ of_kind true l.
Proof.
  induction 1 as [|x l Hsorted IH Hall]; [reflexivity|].
  unfold of_kind in *. cbn [filter].
  destruct (is_file x) eqn:Hx; cbn [Bool.eqb app].
  - assert (Hfiles : Forall (fun e => is_file e = true) l).
    { eapply Forall_impl; [|exact Hall].
      intros z Hz. now apply (key_le_kinds Hz). }
    destruct (all_files_split Hfiles) as [Hd Hf].
    unfold of_kind in Hd, Hf. rewrite Hd, Hf. reflexivity.
  - now f_equal.
Qed.

Lemma append_lines (entries : list entry) (header : str) :
  fold_left (fun result_text e => result_text ++ render_entry e) entries header
  = header ++ List.concat (map render_entry entries).
Proof.
  revert header. induction entries as [|e entries IH]; intros header; cbn.
  - now rewrite app_nil_r.
  - rewrite IH. now rewrite <- app_assoc.
Qed.

Lemma render_listing_lines {W : Type} {platform : Platform W}
    (path : pyval) (entries : list entry) :
  render_listing path entries
  = lit "Contents of directory " ++ py_str path ++ lit ":" ++ nl ++ nl
    ++ List.concat (map render_entry entries).
Proof.
  unfold render_listing. rewrite append_lines.
  now rewrite <- !app_assoc.
Qed.

Section Listing.
Context {W : Type} {platform : Platform W}.

(** What the loop over [os.listdir] collects: one entry per name, in the
    order of the names, each a ["directory"] or a ["file"]; the world is
    only observed. *)
Lemma stat_entries_collected (path : pyval) (names : list str) (w w' : W)
    (entries : list entry) :
  for_each (stat_entry path) names w = (Ok entries, w') ->
  w' = w
  /\ map name entries = names
  /\ Forall (fun e => type e = lit "directory" \/ type e = lit "file") entries.
Proof.
  revert w w' entries.
  induction names as [|n names IH]; intros w w' entries; cbn [for_each].
  - intros [= <- <-]. repeat split. constructor.
  - unfold bind at 1. unfold stat_entry at 1. run_body.
    destruct (join_val path n) as [entry_path|]; [|discriminate].
    destruct (os_isdir w entry_path); cbn [negb].
    + destruct (for_each (stat_entry path) names w) as [[es|] w1] eqn:Hrest;
        [|discriminate].
      intros [= <- <-]. destruct (IH _ _ _ Hrest) as [-> [Hnames Hkinds]].
      repeat split; [cbn; now f_equal | constructor; [now left | exact Hkinds]].
    + destruct (os_getsize w entry_path); [|discriminate].
      destruct (for_each (stat_entry path) names w) as [[es|] w1] eqn:Hrest;
        [|discriminate].
      intros [= <- <-]. destruct (IH _ _ _ Hrest) as [-> [Hnames Hkinds]].
      repeat split; [cbn; now f_equal | constructor; [now right | exact Hkinds]].
Qed.

(** C6.  A successful [list_directory] renders the entries it collected
    with all directories before all files, each group in ascending order
    of the names: the text is the header followed by the lines of
    [dirs ++ files], where [dirs] and [files] are the directories and the
    files of the sorted list, [dirs ++ files] is a rearrangement of the
    collected entries, [dirs] holds directories only and [files] files
    only, and both are sorted by name.  Entries [b.txt], [a_dir/], [c.txt]
    come out as [a_dir/], [b.txt], [c.txt]. *)
Theorem list_directory_order (self : MCPFilesystemServer) (path : pyval)
    (names : list str) (entries : list entry) (w : W) :
  truthy path = true ->
  is_safe_path self path w = (Ok true, w) ->
  os_listdir w path = Ok names ->
  for_each (stat_entry path) names w = (Ok entries, w) ->
  (let dirs := of_kind false (sort_entries entries) in
   let files := of_kind true (sort_entries entries) in
      list_directory self path w
      = (Ok (PDict [(lit "content",
                     PList [PDict [(lit "type", PStr (lit "text"));
                                   (lit "text",
                                    PStr (lit "Contents of directory "
                                          ++ py_str path ++ lit ":" ++ nl ++ nl
                                          ++ List.concat (map render_entry
                                                       (dirs ++ files))))]])]),
         w)
      /\ map name entries = names
      /\ Permutation entries (dirs ++ files)
      /\ Forall (fun e => type e = lit "directory") dirs
      /\ Forall (fun e => type e = lit "file") files
      /\ StronglySorted name_le dirs
      /\ StronglySorted name_le files)
  /\ map name
       (sort_entries
          [ {| name := lit "b.txt"; type := lit "file"; size := 3 |};
            {| name := lit "a_dir"; type := lit "directory"; size := 0 |};
            {| name := lit "c.txt"; type := lit "file"; size := 4 |} ])
     = [lit "a_dir"; lit "b.txt"; lit "c.txt"].
Proof.
  intros Hpath Hsafe Hlist Hstat. split; [|reflexivity].
  pose proof (sort_entries_sorted entries) as Hsorted.
  pose proof (sorted_dirs_then_files Hsorted) as Hsplit.
  destruct (stat_entries_collected _ _ _ Hstat) as [_ [Hnames Hkinds]].
  cbv zeta. rewrite <- Hsplit.
  split; [|split; [exact Hnames|split; [apply sort_entries_perm|]]].
  - unfold list_directory, list_directory_body. rewrite Hpath. cbn [negb].
    run_body. rewrite Hsafe. cbn [negb]. rewrite Hlist, Hstat.
    now rewrite render_listing_lines.
  - assert (Hkinds' : Forall (fun e => type e = lit "directory"
                                       \/ type e = lit "file")
                             (sort_entries entries)).
    { apply (Permutation_Forall (sort_entries_perm entries)), Hkinds. }
    rewrite Forall_forall in Hkinds'.
    repeat split; try now apply of_kind_sorted.
    + apply Forall_forall. intros e He.
      apply filter_In in He. destruct He as [Hin Hkind].
      apply eqb_prop in Hkind. unfold is_file in Hkind.
      destruct (Hkinds' e Hin) as [Hd | Hf]; [exact Hd|].
      rewrite Hf in Hkind. discriminate.
    + apply Forall_forall. intros e He.
      apply filter_In in He. destruct He as [Hin Hkind].
      apply eqb_prop in Hkind. now apply str_eqb_eq.
Qed.

End Listing.

(** The listing of the example directory, as the server renders it. *)
Lemma list_directory_order_witness :
  fst (list_directory demo_server (PStr (lit "/tmp/listing")) demo_world)
  = Ok (PDict [(lit "content",
                PList [text_block
                         (lit "Contents of directory /tmp/listing:" ++ nl ++ nl
                          ++ [128193%N] ++ lit " a_dir" ++ nl
                          ++ [128196%N] ++ lit " b.txt (3 bytes)" ++ nl
                          ++ [128196%N] ++ lit " c.txt (4 bytes)" ++ nl)])]).
Proof.
  destruct (proj1 (@list_directory_order world mem_platform demo_server
                     (PStr (lit "/tmp/listing"))
                     [lit "b.txt"; lit "a_dir"; lit "c.txt"]
                     [ {| name := lit "b.txt"; type := lit "file"; size := 3 |};
                       {| name := lit "a_dir"; type := lit "directory"; size := 0 |};
                       {| name := lit "c.txt"; type := lit "file"; size := 4 |} ]
                     demo_world eq_refl eq_refl eq_refl eq_refl))
    as [Hresponse _].
  rewrite Hresponse. vm_compute. reflexivity.
Defined.

(* ================================================================== *)
(** ** More on the guard *)

Lemma startswith_prefix (s p : str) :
  startswith s p = true <-> exists rest, s = p ++ rest.
Proof.
  revert s. induction p as [|y p IH]; intros [|x s]; cbn.
  - split; [now exists [] | reflexivity].
  - split; [now exists (x :: s) | reflexivity].
  - split; [discriminate | intros [rest Hrest]; discriminate].
  - rewrite andb_true_iff, N.eqb_eq, IH. split.
    + intros [-> [rest ->]]. now exists rest.
    + intros [rest [= -> ->]]. split; [reflexivity | now exists rest].
Qed.

Lemma startswith_self (s : str) : startswith s s = true.
Proof.
  apply startswith_prefix. exists []. now rewrite app_nil_r.
Qed.

Section GuardMore.
Context {W : Type} {platform : Platform W}.


(** X1.  With a working directory, [is_safe_path] accepts a path string exactly
    when its resolved form is the resolved form of a configured root
    followed by any characters at all; hence two strings with the same
    resolved form get the same verdict. *)
Theorem is_safe_path_iff_prefix (self : MCPFilesystemServer) (cwd p : str) (w : W) :
  os_getcwd w = Ok cwd ->
  (is_safe_path self (PStr p) w = (Ok true, w)
   <-> exists root rest,
         In root (safe_paths self)
         /\ resolve cwd p = resolve cwd root ++ rest)
  /\ (forall p', resolve cwd p' = resolve cwd p ->
                 is_safe_path self (PStr p') w = is_safe_path self (PStr p) w).
Proof.
  intros Hcwd. split.
  - rewrite (is_safe_path_existsb self p w Hcwd). split.
    + intros [= Hex]. apply existsb_exists in Hex.
      destruct Hex as [root [Hin Hpre]].
      apply startswith_prefix in Hpre. destruct Hpre as [rest Hrest].
      now exists root, rest.
    + intros [root [rest [Hin Hrest]]]. do 2 f_equal.
      apply existsb_exists. exists root. split; [exact Hin|].
      apply startswith_prefix. now exists rest.
  - intros p' Hsame.
    rewrite (is_safe_path_existsb self p w Hcwd).
    rewrite (is_safe_path_existsb self p' w Hcwd).
    now rewrite Hsame.
Qed.

(** X2.  When [os.getcwd()] raises, every relative path is refused by every
    server, and the server the constructor builds, whose first root is
    relative, refuses every path. *)
Theorem is_safe_path_without_cwd (e : exn) (w : W) :
  os_getcwd w = Raise e ->
  (forall self p, startswith p [sep] = false ->
                  is_safe_path self (PStr p) w = (Ok false, w))
  /\ (forall home path, is_safe_path (init home) path w = (Ok false, w)).
Proof.
  intros Hcwd.
  assert (Hrel : forall self p, startswith p [sep] = false ->
                   is_safe_path self (PStr p) w = (Ok false, w)).
  { intros self p Hp. unfold is_safe_path, try_except, bind, abspath.
    rewrite Hp. unfold bind, observe. now rewrite Hcwd. }
  split; [exact Hrel|].
  intros home path.
  destruct path; try reflexivity.
  destruct (startswith s [sep]) eqn:Habs; [|now apply Hrel].
  unfold is_safe_path, try_except, bind.
  rewrite (abspath_absolute s w Habs).
  cbn [init safe_paths check_safe_paths]. unfold bind at 1.
  unfold abspath at 1.
  change (startswith (lit "demos/") [sep]) with false. cbv iota.
  unfold bind, observe. now rewrite Hcwd.
Qed.

(** X3.  With a working directory: every configured root passes the guard of
    its own server; adding roots to a server never turns an accepted path
    into a refused one; and a server without roots refuses every path. *)
Theorem is_safe_path_roots (self : MCPFilesystemServer) (cwd : str) (w : W) :
  os_getcwd w = Ok cwd ->
  (forall root, In root (safe_paths self) ->
                is_safe_path self (PStr root) w = (Ok true, w))
  /\ (forall more p,
        is_safe_path self (PStr p) w = (Ok true, w) ->
        is_safe_path {| tools := tools self;
                        safe_paths := safe_paths self ++ more |} (PStr p) w
        = (Ok true, w))
  /\ (forall catalog path,
        is_safe_path {| tools := catalog; safe_paths := [] |} path w
        = (Ok false, w)).
Proof.
  intros Hcwd. split; [|split].
  - intros root Hin. rewrite (is_safe_path_existsb self root w Hcwd).
    do 2 f_equal. apply existsb_exists. exists root.
    split; [exact Hin | apply startswith_self].
  - intros more p. rewrite !(is_safe_path_existsb _ p w Hcwd).
    intros [= Hex]. do 2 f_equal. cbn [safe_paths].
    rewrite existsb_app, Hex. reflexivity.
  - intros catalog path. destruct path; try reflexivity.
    now rewrite (is_safe_path_existsb _ s w Hcwd).
Qed.

End GuardMore.

Lemma is_safe_path_iff_prefix_witness :
  is_safe_path demo_server (PStr (lit "/tmp/a/../hello.txt")) demo_world
  = is_safe_path demo_server (PStr (lit "/tmp/hello.txt")) demo_world.
Proof.
  apply (proj2 (@is_safe_path_iff_prefix world mem_platform demo_server
                  (lit "/srv/app") (lit "/tmp/hello.txt") demo_world eq_refl)).
  reflexivity.
Defined.

Lemma is_safe_path_without_cwd_witness :
  is_safe_path demo_server (PStr (lit "/tmp/hello.txt"))
    {| cwd := None; nodes := nodes demo_world |}
  = (Ok false, {| cwd := None; nodes := nodes demo_world |}).
Proof.
  apply (proj2 (@is_safe_path_without_cwd world mem_platform
                  (Exn FileNotFoundError (lit "[Errno 2] No such file or directory"))
                  {| cwd := None; nodes := nodes demo_world |} eq_refl)).
Defined.

Lemma is_safe_path_roots_witness :
  is_safe_path demo_server (PStr (lit "docs/")) demo_world = (Ok true, demo_world).
Proof.
  apply (proj1 (@is_safe_path_roots world mem_platform demo_server
                  (lit "/srv/app") demo_world eq_refl)).
  cbn. tauto.
Defined.

(* ================================================================== *)
(** ** More on the handlers *)

Section HandlersMore.
Context {W : Type} {platform : Platform W}.

(** X4.  A path the guard refuses is answered alike by the three handlers:
    code -32603 and "Access denied: Path '<path>' is outside safe
    directories", whatever the file system holds at that path. *)
Theorem refused_path_is_denied (guard : pyval -> M W bool)
    (path content : pyval) (w w' : W) :
  truthy path = true ->
  guard path w = (Ok false, w') ->
  let message := lit "Access denied: Path '" ++ py_str path
                 ++ lit "' is outside safe directories" in
  read_file_body guard path w = (Ok (error_response (-32603) message), w')
  /\ list_directory_body guard path w
     = (Ok (error_response (-32603) message), w')
  /\ (is_None content = false ->
      write_file_body guard path content w
      = (Ok (error_response (-32603) message), w'))
  /\ contains message (py_str path).
Proof.
  intros Hpath Hguard message. repeat split.
  - unfold read_file_body. rewrite Hpath. cbn [negb].
    unfold bind. now rewrite Hguard.
  - unfold list_directory_body. rewrite Hpath. cbn [negb].
    unfold bind. now rewrite Hguard.
  - intros Hcontent. unfold write_file_body. rewrite Hpath, Hcontent.
    cbn [negb orb]. unfold bind. now rewrite Hguard.
  - unfold message. apply contains_extend. apply contains_prefix.
Qed.


(** X6.  What [read_file] does with an exception of [open] or [read] other
    than a missing file: a [PermissionError] is answered with code -32603
    and "Permission denied: <path>"; any other exception leaves
    [read_file] as it came, and [call_tool] turns it into code -32603
    with "Tool execution failed: " followed by [str(e)]. *)
Theorem read_file_faults (self : MCPFilesystemServer) (p : str)
    (arguments : pyval) (e : exn) (w : W) :
  p <> [] ->
  is_safe_path self (PStr p) w = (Ok true, w) ->
  os_read_text w (PStr p) = Raise e ->
  get arguments "path" PNone = Ok (PStr p) ->
  (exn_cls e = PermissionError ->
   read_file self (PStr p) w
   = (Ok (error_response (-32603) (lit "Permission denied: " ++ p)), w))
  /\ (exn_cls e <> FileNotFoundError ->
      exn_cls e <> PermissionError ->
      read_file self (PStr p) w = (Raise e, w)
      /\ call_tool self (PStr (lit "read_file")) arguments w
         = (Ok (error_response (-32603)
                  (lit "Tool execution failed: " ++ exn_str e)), w)).
Proof.
  intros Hp Hsafe Hraise Harg.
  assert (Htruthy : truthy (PStr p) = true) by (destruct p; [easy | reflexivity]).
  assert (Hbody : read_file self (PStr p) w
                  = match exn_cls e with
                    | FileNotFoundError =>
                        (Ok (error_response (-32603) (lit "File not found: " ++ p)), w)
                    | PermissionError =>
                        (Ok (error_response (-32603) (lit "Permission denied: " ++ p)), w)
                    | _ => (Raise e, w)
                    end).
  { unfold read_file, read_file_body. rewrite Htruthy. cbn [negb].
    run_body. rewrite Hsafe. cbn [negb]. rewrite Hraise.
    destruct (exn_cls e); reflexivity. }
  split.
  - intros Hcls. now rewrite Hbody, Hcls.
  - intros Hfnf Hperm.
    assert (Hre : read_file self (PStr p) w = (Raise e, w)).
    { rewrite Hbody. destruct (exn_cls e); easy. }
    split; [exact Hre|].
    unfold call_tool, try_except.
    change (eq_str (PStr (lit "read_file")) (lit "read_file")) with true.
    cbv iota. unfold bind, lift. now rewrite Harg, Hre.
Qed.

(** X7.  The argument check of [write_file] on the content: absent content is
    refused whatever the path is and whatever the guard would say; empty
    content is accepted and reported with length 0;
    and content that is a number or a boolean passes the check and the
    guard and then makes the handler raise [TypeError], since it has no
    [len]. *)
Theorem write_file_content_check (guard : pyval -> M W bool)
    (path : pyval) (w w' : W) :
  write_file_body guard path PNone w
  = (Ok (error_response (-32602) (lit "Path and content are required")), w)
  /\ (truthy path = true ->
      guard path w = (Ok true, w') ->
      write_file_body guard path (PStr []) w
      = (Ok (PDict [(lit "content",
                     PList [text_block (confirmation_text path 0)]);
                    (lit "metadata", confirmation_metadata)]), w')
      /\ contains (confirmation_text path 0) (lit "Content length: 0 characters")
      /\ (forall content,
            (exists b, content = PBool b) \/ (exists z, content = PInt z)
            \/ (exists f, content = PFloat f) ->
            exists message,
              write_file_body guard path content w
              = (Raise (Exn TypeError message), w'))).
Proof.
  split.
  - unfold write_file_body. now rewrite orb_true_r.
  - intros Hpath Hguard. split; [|split].
    + unfold write_file_body. rewrite Hpath. cbn [negb orb is_None].
      unfold bind at 1. rewrite Hguard. reflexivity.
    + unfold confirmation_text.
      do 6 apply contains_extend.
      change (lit "Content length: " ++ str_of_int 0 ++ lit " characters" ++ nl
              ++ lit "This operation would create/overwrite a file." ++ nl
              ++ lit "Please confirm this action through the UI.")
        with (lit "Content length: 0 characters" ++ nl
              ++ lit "This operation would create/overwrite a file." ++ nl
              ++ lit "Please confirm this action through the UI.").
      apply contains_prefix.
    + intros content Hkind. eexists.
      unfold write_file_body. rewrite Hpath.
      destruct Hkind as [[b ->] | [[z ->] | [f ->]]];
        cbn [negb orb is_None]; unfold bind at 1; rewrite Hguard;
        reflexivity.
Qed.

End HandlersMore.

Lemma refused_path_is_denied_witness :
  read_file demo_server (PStr (lit "/etc/passwd")) demo_world
  = (Ok (error_response (-32603)
           (lit "Access denied: Path '/etc/passwd' is outside safe directories")),
     demo_world).
Proof.
  refine (proj1 (@refused_path_is_denied world mem_platform
                   (is_safe_path demo_server) (PStr (lit "/etc/passwd")) PNone
                   demo_world demo_world eq_refl _)).
  vm_compute. reflexivity.
Defined.


Lemma read_file_faults_witness :
  read_file demo_server (PStr (lit "/tmp/secret")) demo_world
  = (Ok (error_response (-32603) (lit "Permission denied: /tmp/secret")),
     demo_world).
Proof.
  refine (proj1 (@read_file_faults world mem_platform demo_server
                  (lit "/tmp/secret")
                  (PDict [(lit "path", PStr (lit "/tmp/secret"))])
                  (os_error PermissionError "[Errno 13] Permission denied"
                     (lit "/tmp/secret"))
                  demo_world ltac:(discriminate) _ eq_refl eq_refl) eq_refl).
  vm_compute. reflexivity.
Defined.

Lemma write_file_content_check_witness :
  write_file demo_server (PStr (lit "test/x.txt")) (PStr []) demo_world
  = (Ok (PDict [(lit "content",
                 PList [text_block
                          (confirmation_text (PStr (lit "test/x.txt")) 0)]);
                (lit "metadata", confirmation_metadata)]), demo_world).
Proof.
  refine (proj1 (proj2 (@write_file_content_check world mem_platform
                          (is_safe_path demo_server) (PStr (lit "test/x.txt"))
                          demo_world demo_world) eq_refl _)).
  vm_compute. reflexivity.
Defined.

(* ================================================================== *)
(** ** More on listings *)

Lemma key_le_antisym (x y : entry) : key_le x y -> key_le y x -> name x = name y.
Proof.
  unfold key_le, key_ltb, sort_key. cbn [fst snd].
  destruct (str_eqb (type x) (lit "file")), (str_eqb (type y) (lit "file"));
    cbn; try easy.
  all: intros Hyx Hxy; now apply StrOrder.ltb_connex.
Qed.

Lemma sorted_perm_unique (l1 l2 : list entry) :
  StronglySorted key_le l1 -> StronglySorted key_le l2 ->
  Permutation l1 l2 -> NoDup (map name l1) -> l1 = l2.
Proof.
  revert l2. induction l1 as [|x l1 IH]; intros l2 Hs1 Hs2 Hperm Hnodup.
  - apply Permutation_nil in Hperm. now subst.
  - destruct l2 as [|y l2].
    { apply Permutation_sym, Permutation_nil in Hperm. discriminate. }
    apply StronglySorted_inv in Hs1. destruct Hs1 as [Hs1 Hx].
    apply StronglySorted_inv in Hs2. destruct Hs2 as [Hs2 Hy].
    cbn in Hnodup. apply NoDup_cons_iff in Hnodup.
    destruct Hnodup as [Hfresh Hnodup].
    assert (Hxy : x = y).
    { assert (Hin_x : In x (y :: l2))
        by (apply (Permutation_in _ Hperm); now left).
      assert (Hin_y : In y (x :: l1))
        by (apply (Permutation_in _ (Permutation_sym Hperm)); now left).
      destruct Hin_x as [-> | Hin_x]; [reflexivity|].
      destruct Hin_y as [-> | Hin_y]; [reflexivity|].
      rewrite Forall_forall in Hx, Hy.
      pose proof (key_le_antisym (Hx y Hin_y) (Hy x Hin_x)) as Hname.
      exfalso. apply Hfresh. rewrite Hname. now apply in_map. }
    subst y. f_equal.
    apply IH; try assumption. now apply Permutation_cons_inv in Hperm.
Qed.

Lemma sort_entries_of_sorted (l : list entry) :
  StronglySorted key_le l -> sort_entries l = l.
Proof.
  induction 1 as [|x l Hsorted IH Hall]; [reflexivity|].
  cbn. rewrite IH. destruct l as [|y l]; [reflexivity|].
  cbn. apply Forall_inv in Hall. unfold key_le in Hall. now rewrite Hall.
Qed.

Section ListingMore.
Context {W : Type} {platform : Platform W}.

Lemma stat_entry_outcome (p n : str) (w : W) :
  stat_entry (PStr p) n w
  = if os_isdir w (join p n)
    then (Ok {| name := n; type := lit "directory"; size := 0 |}, w)
    else match os_getsize w (join p n) with
         | Ok z => (Ok {| name := n; type := lit "file"; size := z |}, w)
         | Raise e => (Raise e, w)
         end.
Proof.
  unfold stat_entry. run_body. cbn [join_val].
  destruct (os_isdir w (join p n)); cbn [negb]; [reflexivity|].
  destruct (os_getsize w (join p n)); reflexivity.
Qed.

(** The loop over the names either collects an entry for each of them or
    stops at the first file whose size cannot be read. *)
Lemma stat_entries_outcome (p : str) (names : list str) (w : W) :
  (exists entries,
      for_each (stat_entry (PStr p)) names w = (Ok entries, w)
      /\ map name entries = names
      /\ Forall (entry_of w p) entries)
  \/ (exists n e,
        In n names
        /\ os_isdir w (join p n) = false
        /\ os_getsize w (join p n) = Raise e
        /\ for_each (stat_entry (PStr p)) names w = (Raise e, w)).
Proof.
  induction names as [|n names IH].
  - left. exists []. repeat split. constructor.
  - assert (Hstep :
      for_each (stat_entry (PStr p)) (n :: names) w
      = match stat_entry (PStr p) n w with
        | (Ok en, w') =>
            match for_each (stat_entry (PStr p)) names w' with
            | (Ok es, w'') => (Ok (en :: es), w'')
            | (Raise e, w'') => (Raise e, w'')
            end
        | (Raise e, w') => (Raise e, w')
        end) by reflexivity.
    rewrite Hstep, stat_entry_outcome. clear Hstep.
    destruct (os_isdir w (join p n)) eqn:Hdir.
    + destruct IH as [[entries [Hrun [Hnames Hall]]] | [m [e [Hin [Hd [Hsize Hrun]]]]]];
        rewrite Hrun.
      * left. eexists.
        split; [reflexivity|]. split; [cbn; now f_equal|].
        constructor; [|exact Hall]. left. cbn. now rewrite Hdir.
      * right. exists m, e. repeat split; try assumption. now right.
    + destruct (os_getsize w (join p n)) as [z|e] eqn:Hsize.
      * destruct IH as [[entries [Hrun [Hnames Hall]]] | [m [e [Hin [Hd [Hsz Hrun]]]]]];
          rewrite Hrun.
        -- left. eexists.
           split; [reflexivity|]. split; [cbn; now f_equal|].
           constructor; [|exact Hall]. right. cbn. now rewrite Hdir, Hsize.
        -- right. exists m, e. repeat split; try assumption. now right.
      * right. exists n, e. repeat split; try assumption. now left.
Qed.

Lemma list_directory_run (self : MCPFilesystemServer) (p : str) (w : W) :
  p <> [] ->
  is_safe_path self (PStr p) w = (Ok true, w) ->
  list_directory self (PStr p) w
  = try_except
      (names <- observe (fun w => os_listdir w (PStr p));;
       entries <- for_each (stat_entry (PStr p)) names;;
       ret (PDict [(lit "content",
                    PList [text_block
                             (render_listing (PStr p) (sort_entries entries))])]))
      (fun e =>
         match exn_cls e with
         | FileNotFoundError =>
             Some (ret (error_response (-32603)
                          (lit "Directory not found: " ++ p)))
         | PermissionError =>
             Some (ret (error_response (-32603)
                          (lit "Permission denied: " ++ p)))
         | _ => None
         end) w.
Proof.
  intros Hp Hsafe.
  unfold list_directory, list_directory_body.
  destruct p as [|c p]; [easy|]. cbn [truthy negb].
  unfold bind at 1. rewrite Hsafe. reflexivity.
Qed.


(** X9.  When a listing succeeds.  If every name [os.listdir] returns is a
    directory or a file whose size can be read, [list_directory] answers
    the header followed by one line per sorted entry: a directory shows
    its name only, a file its name and the size [os.path.getsize] reports
    for it. *)
Theorem list_directory_lines (self : MCPFilesystemServer) (p : str)
    (names : list str) (w : W) :
  p <> [] ->
  is_safe_path self (PStr p) w = (Ok true, w) ->
  os_listdir w (PStr p) = Ok names ->
  (forall n, In n names ->
             os_isdir w (join p n) = true
             \/ exists z, os_getsize w (join p n) = Ok z) ->
  exists entries,
    map name entries = names
    /\ list_directory self (PStr p) w
       = (Ok (PDict [(lit "content",
                      PList [text_block
                               (lit "Contents of directory " ++ p ++ lit ":"
                                ++ nl ++ nl
                                ++ List.concat (map render_entry
                                                  (sort_entries entries)))])]),
          w)
    /\ Forall (fun en =>
                 (os_isdir w (join p (name en)) = true
                  /\ render_entry en
                     = [128193%N] ++ lit " " ++ name en ++ nl)
                 \/ (os_isdir w (join p (name en)) = false
                     /\ os_getsize w (join p (name en)) = Ok (size en)
                     /\ render_entry en
                        = [128196%N] ++ lit " " ++ name en ++ lit " ("
                          ++ str_of_int (size en) ++ lit " bytes)" ++ nl))
              (sort_entries entries).
Proof.
  intros Hp Hsafe Hlist Hstat.
  destruct (stat_entries_outcome p names w)
    as [[entries [Hrun [Hnames Hall]]] | [m [e [Hm [Hd [Hsz _]]]]]].
  2: { destruct (Hstat m Hm) as [Hdir | [z Hz]]; congruence. }
  exists entries. split; [exact Hnames|]. split.
  - rewrite (list_directory_run self Hp Hsafe).
    unfold try_except, bind at 1, observe. rewrite Hlist.
    unfold bind, ret. rewrite Hrun.
    now rewrite (render_listing_lines (PStr p)).
  - apply (Permutation_Forall (sort_entries_perm entries)).
    eapply Forall_impl; [|exact Hall].
    intros en [[Hdir [Htype Hsize]] | [Hdir [Htype Hsize]]].
    + left. split; [exact Hdir|]. unfold render_entry. now rewrite Htype.
    + right. split; [exact Hdir|]. split; [exact Hsize|].
      unfold render_entry. rewrite Htype. cbn [str_eqb].
      change (str_eqb (lit "file") (lit "directory")) with false.
      change (str_eqb (lit "file") (lit "file")) with true.
      cbv iota. now rewrite <- !app_assoc.
Qed.

(** X10.  The listing does not depend on the order in which [os.listdir]
    returns the names: two collections of the same entries, with distinct
    names, sort to the same list and render to the same text; and sorting
    a sorted list changes nothing. *)
Theorem listing_order_independent (path : pyval) (l1 l2 : list entry) :
  Permutation l1 l2 ->
  NoDup (map name l1) ->
  sort_entries l1 = sort_entries l2
  /\ render_listing path (sort_entries l1) = render_listing path (sort_entries l2)
  /\ sort_entries (sort_entries l1) = sort_entries l1.
Proof.
  intros Hperm Hnodup.
  assert (Hsame : sort_entries l1 = sort_entries l2).
  { apply sorted_perm_unique; try apply sort_entries_sorted.
    - rewrite <- (sort_entries_perm l1), <- (sort_entries_perm l2). exact Hperm.
    - eapply Permutation_NoDup; [|exact Hnodup].
      apply Permutation_map, sort_entries_perm. }
  split; [exact Hsame|]. split; [now rewrite Hsame|].
  apply sort_entries_of_sorted, sort_entries_sorted.
Qed.

End ListingMore.


Lemma list_directory_lines_witness :
  exists entries,
    map name entries = [lit "b.txt"; lit "a_dir"; lit "c.txt"]
    /\ fst (list_directory demo_server (PStr (lit "/tmp/listing")) demo_world)
       = Ok (PDict [(lit "content",
                     PList [text_block
                              (lit "Contents of directory /tmp/listing:"
                               ++ nl ++ nl
                               ++ List.concat (map render_entry
                                                 (sort_entries entries)))])]).
Proof.
  destruct (@list_directory_lines world mem_platform demo_server
              (lit "/tmp/listing") [lit "b.txt"; lit "a_dir"; lit "c.txt"]
              demo_world ltac:(discriminate)) as [entries [Hnames [Hrun _]]].
  - vm_compute. reflexivity.
  - reflexivity.
  - intros n [<- | [<- | [<- | []]]].
    + right. now exists 3%Z.
    + left. reflexivity.
    + right. now exists 4%Z.
  - exists entries. split; [exact Hnames|]. now rewrite Hrun.
Defined.

Lemma listing_order_independent_witness :
  sort_entries [ {| name := lit "b.txt"; type := lit "file"; size := 3 |};
                 {| name := lit "a_dir"; type := lit "directory"; size := 0 |} ]
  = sort_entries [ {| name := lit "a_dir"; type := lit "directory"; size := 0 |};
                   {| name := lit "b.txt"; type := lit "file"; size := 3 |} ].
Proof.
  apply (@listing_order_independent world mem_platform PNone).
  - apply perm_swap.
  - cbn [map name]. repeat constructor; cbn; intuition discriminate.
Defined.

(* ================================================================== *)
(** ** The server only observes *)

Section ReadOnly.
Context {W : Type} {platform : Platform W}.

Lemma for_each_keeps_world (A B : Type) (f : A -> M W B) (l : list A) (w : W) :
  (forall x w0, snd (f x w0) = w0) -> snd (for_each f l w) = w.
Proof.
  intros Hf. induction l as [|x l IH]; [reflexivity|].
  cbn [for_each]. unfold bind, ret.
  pose proof (Hf x w) as Hx.
  destruct (f x w) as [[y|e] w0]; cbn in Hx; subst w0; [|reflexivity].
  destruct (for_each f l w) as [[ys|e] w1]; cbn in IH; subst w1; reflexivity.
Qed.

Lemma stat_entry_keeps_world (path : pyval) (n : str) (w : W) :
  snd (stat_entry path n w) = w.
Proof.
  unfold stat_entry. run_body.
  destruct (join_val path n); [|reflexivity].
  destruct (os_isdir w a); cbn [negb]; [reflexivity|].
  destruct (os_getsize w a); reflexivity.
Qed.

Lemma read_file_keeps_world (self : MCPFilesystemServer) (path : pyval) (w : W) :
  snd (read_file self path w) = w.
Proof.
  unfold read_file, read_file_body.
  destruct (truthy path); cbn [negb]; [|reflexivity].
  unfold bind at 1. destruct (is_safe_path_answers self path w) as [b ->].
  destruct b; cbn [negb]; [|reflexivity].
  run_body. destruct (os_read_text w path) as [content|e]; [reflexivity|].
  destruct (exn_cls e); reflexivity.
Qed.

Lemma list_directory_keeps_world (self : MCPFilesystemServer) (path : pyval) (w : W) :
  snd (list_directory self path w) = w.
Proof.
  unfold list_directory, list_directory_body.
  destruct (truthy path); cbn [negb]; [|reflexivity].
  unfold bind at 1. destruct (is_safe_path_answers self path w) as [b ->].
  destruct b; cbn [negb]; [|reflexivity].
  unfold try_except, bind at 1, observe.
  destruct (os_listdir w path) as [names|e].
  - unfold bind, ret.
    pose proof (for_each_keeps_world (stat_entry path) names w
                  (stat_entry_keeps_world path)) as Hw.
    destruct (for_each (stat_entry path) names w) as [[entries|e] w1];
      cbn in Hw; subst w1; [reflexivity|].
    destruct (exn_cls e); reflexivity.
  - destruct (exn_cls e); reflexivity.
Qed.

Lemma write_file_keeps_world (self : MCPFilesystemServer)
    (path content : pyval) (w : W) :
  snd (write_file self path content w) = w.
Proof.
  unfold write_file, write_file_body.
  destruct (negb (truthy path) || is_None content); [reflexivity|].
  unfold bind at 1. destruct (is_safe_path_answers self path w) as [b ->].
  destruct b; cbn [negb]; [|reflexivity].
  cbv zeta. run_body. destruct (py_len content); reflexivity.
Qed.

Lemma call_tool_keeps_world (self : MCPFilesystemServer)
    (tool_name arguments : pyval) (w : W) :
  snd (call_tool self tool_name arguments w) = w.
Proof.
  unfold call_tool, try_except.
  destruct (eq_str tool_name (lit "read_file")).
  { unfold bind, lift. destruct (get arguments "path" PNone) as [path|]; [|reflexivity].
    pose proof (read_file_keeps_world self path w) as Hw.
    destruct (read_file self path w) as [[r|e] w1]; cbn in Hw; now subst. }
  destruct (eq_str tool_name (lit "list_directory")).
  { unfold bind, lift. destruct (get arguments "path" PNone) as [path|]; [|reflexivity].
    pose proof (list_directory_keeps_world self path w) as Hw.
    destruct (list_directory self path w) as [[r|e] w1]; cbn in Hw; now subst. }
  destruct (eq_str tool_name (lit "write_file")); [|reflexivity].
  unfold bind, lift. destruct (get arguments "path" PNone) as [path|]; [|reflexivity].
  destruct (get arguments "content" PNone) as [content|]; [|reflexivity].
  pose proof (write_file_keeps_world self path content w) as Hw.
  destruct (write_file self path content w) as [[r|e] w1]; cbn in Hw; now subst.
Qed.

Lemma handle_request_keeps_world (self : MCPFilesystemServer) (request : pyval) (w : W) :
  snd (handle_request self request w) = w.
Proof.
  unfold handle_request, bind, lift.
  destruct (get request "method" PNone) as [method|]; [|reflexivity].
  destruct (get request "params" (PDict [])) as [params|]; [|reflexivity].
  destruct (eq_str method (lit "tools/list")); [reflexivity|].
  destruct (eq_str method (lit "tools/call")); [|reflexivity].
  destruct (get params "name" PNone) as [tool_name|]; [|reflexivity].
  destruct (get params "arguments" (PDict [])) as [arguments|]; [|reflexivity].
  apply call_tool_keeps_world.
Qed.

Lemma main_turn_returns (self : MCPFilesystemServer) (request : pyval) (w : W) :
  exists r, main_turn self request w = (Ok r, w).
Proof.
  unfold main_turn, try_except.
  pose proof (handle_request_keeps_world self request w) as Hw.
  destruct (handle_request self request w) as [[r|e] w1]; cbn in Hw; subst w1.
  - now exists r.
  - eexists. reflexivity.
Qed.

(** X11.  Nothing the server does changes the world outside the process: not a
    handler, not [call_tool], not [handle_request], and not the main loop
    over any sequence of requests. *)
Theorem server_only_observes (self : MCPFilesystemServer) (w : W) :
  (forall path, snd (read_file self path w) = w)
  /\ (forall path, snd (list_directory self path w) = w)
  /\ (forall tool_name arguments, snd (call_tool self tool_name arguments w) = w)
  /\ (forall request, snd (handle_request self request w) = w)
  /\ (forall requests, snd (main_loop self requests w) = w).
Proof.
  repeat split.
  - intros path. apply read_file_keeps_world.
  - intros path. apply list_directory_keeps_world.
  - intros tool_name arguments. apply call_tool_keeps_world.
  - intros request. apply handle_request_keeps_world.
  - intros requests. unfold main_loop. apply for_each_keeps_world.
    intros request w0. destruct (main_turn_returns self request w0) as [r ->].
    reflexivity.
Qed.

(** X12.  The main loop keeps no state between requests: it answers every
    request, and each answer is the one the request gets when it is the
    only one sent. *)
Theorem main_loop_stateless (self : MCPFilesystemServer)
    (requests : list pyval) (w : W) :
  exists responses,
    main_loop self requests w = (Ok responses, w)
    /\ Forall2 (fun request response =>
                  main_loop self [request] w = (Ok [response], w))
               requests responses.
Proof.
  unfold main_loop.
  induction requests as [|request requests [responses [Hrun Hall]]].
  - exists []. split; [reflexivity | constructor].
  - destruct (main_turn_returns self request w) as [r Hr].
    exists (r :: responses). cbn [for_each]. unfold bind, ret.
    rewrite Hr, Hrun. split; [reflexivity|].
    constructor; [now rewrite Hr | exact Hall].
Qed.

End ReadOnly.

(* ================================================================== *)
(** ** More on the dispatcher *)

Section DispatcherMore.
Context {W : Type} {platform : Platform W}.

(** X13.  Arguments that are not a mapping (a list, a string, a number, [null])
    make [arguments.get] raise [AttributeError] for each of the three
    tools; [call_tool] answers code -32603 with the text of that
    exception. *)
Theorem call_tool_arguments_not_a_mapping (self : MCPFilesystemServer)
    (tool_name arguments : pyval) (w : W) :
  tool_name = PStr (lit "read_file") \/ tool_name = PStr (lit "list_directory")
  \/ tool_name = PStr (lit "write_file") ->
  (forall d, arguments <> PDict d) ->
  call_tool self tool_name arguments w
  = (Ok (error_response (-32603)
           (lit "Tool execution failed: '" ++ type_name arguments
            ++ lit "' object has no attribute 'get'")), w).
Proof.
  intros Hname Hargs.
  assert (Hget : forall k default,
             get arguments k default
             = Raise (Exn AttributeError
                        (lit "'" ++ type_name arguments
                         ++ lit "' object has no attribute 'get'"))).
  { intros k default. destruct arguments; try reflexivity. now destruct (Hargs d). }
  unfold call_tool, try_except.
  destruct Hname as [-> | [-> | ->]].
  - change (eq_str (PStr (lit "read_file")) (lit "read_file")) with true.
    cbv iota. unfold bind, lift. now rewrite Hget.
  - change (eq_str (PStr (lit "list_directory")) (lit "read_file")) with false.
    change (eq_str (PStr (lit "list_directory")) (lit "list_directory")) with true.
    cbv iota. unfold bind, lift. now rewrite Hget.
  - change (eq_str (PStr (lit "write_file")) (lit "read_file")) with false.
    change (eq_str (PStr (lit "write_file")) (lit "list_directory")) with false.
    change (eq_str (PStr (lit "write_file")) (lit "write_file")) with true.
    cbv iota. unfold bind, lift. now rewrite Hget.
Qed.

(** X14.  A key that is missing from the arguments counts as [None]: without
    [path], [read_file] and [list_directory] answer -32602 "Path is
    required"; without [path] or without [content], [write_file] answers
    -32602 "Path and content are required". *)
Theorem call_tool_missing_keys (self : MCPFilesystemServer)
    (d : list (str * pyval)) (w : W) :
  (lookup d (lit "path") = None ->
   call_tool self (PStr (lit "read_file")) (PDict d) w
   = (Ok (error_response (-32602) (lit "Path is required")), w)
   /\ call_tool self (PStr (lit "list_directory")) (PDict d) w
      = (Ok (error_response (-32602) (lit "Path is required")), w))
  /\ (lookup d (lit "path") = None \/ lookup d (lit "content") = None ->
      call_tool self (PStr (lit "write_file")) (PDict d) w
      = (Ok (error_response (-32602) (lit "Path and content are required")), w)).
Proof.
  split.
  - intros Hpath. split.
    + unfold call_tool, try_except.
      change (eq_str (PStr (lit "read_file")) (lit "read_file")) with true.
      cbv iota. unfold bind, lift, get. now rewrite Hpath.
    + unfold call_tool, try_except.
      change (eq_str (PStr (lit "list_directory")) (lit "read_file")) with false.
      change (eq_str (PStr (lit "list_directory")) (lit "list_directory")) with true.
      cbv iota. unfold bind, lift, get. now rewrite Hpath.
  - intros Hmissing. unfold call_tool, try_except.
    change (eq_str (PStr (lit "write_file")) (lit "read_file")) with false.
    change (eq_str (PStr (lit "write_file")) (lit "list_directory")) with false.
    change (eq_str (PStr (lit "write_file")) (lit "write_file")) with true.
    cbv iota. unfold bind, lift, get.
    destruct Hmissing as [Hpath | Hcontent].
    + rewrite Hpath. destruct (lookup d (lit "content")); reflexivity.
    + rewrite Hcontent. unfold write_file, write_file_body.
      cbn [is_None]. now rewrite orb_true_r.
Qed.

(** X15.  A request whose method is neither [tools/list] nor [tools/call] is
    answered with code -32601 and "Method not found: <method>", a request
    without a method with "Method not found: None"; a request that is not
    an object makes [handle_request] raise [AttributeError], which the
    main loop answers with code -32603 and "Internal error: " followed by
    the text of the exception. *)
Theorem handle_request_other_methods (self : MCPFilesystemServer)
    (request : pyval) (w : W) :
  (forall d method,
      request = PDict d ->
      method = match lookup d (lit "method") with
               | Some m => m
               | None => PNone
               end ->
      method <> PStr (lit "tools/list") ->
      method <> PStr (lit "tools/call") ->
      handle_request self request w
      = (Ok (error_response (-32601)
               (lit "Method not found: " ++ py_str method)), w)
      /\ (lookup d (lit "method") = None ->
          handle_request self request w
          = (Ok (error_response (-32601) (lit "Method not found: None")), w)))
  /\ ((forall d, request <> PDict d) ->
      handle_request self request w
      = (Raise (Exn AttributeError
                  (lit "'" ++ type_name request
                   ++ lit "' object has no attribute 'get'")), w)
      /\ main_turn self request w
         = (Ok (error_response (-32603)
                  (lit "Internal error: '" ++ type_name request
                   ++ lit "' object has no attribute 'get'")), w)).
Proof.
  split.
  - intros d method -> Hmethod Hlist Hcall.
    assert (Hrun : handle_request self (PDict d) w
                   = (Ok (error_response (-32601)
                            (lit "Method not found: " ++ py_str method)), w)).
    { unfold handle_request, bind, lift, get. rewrite <- Hmethod.
      now rewrite (eq_str_false Hlist), (eq_str_false Hcall). }
    split; [exact Hrun|].
    intros Hnone. rewrite Hrun, Hmethod, Hnone. reflexivity.
  - intros Hrequest.
    assert (Hrun : handle_request self request w
                   = (Raise (Exn AttributeError
                               (lit "'" ++ type_name request
                                ++ lit "' object has no attribute 'get'")), w)).
    { destruct request; try reflexivity. now destruct (Hrequest d). }
    split; [exact Hrun|].
    unfold main_turn, try_except. now rewrite Hrun.
Qed.

(** X16.  A [tools/call] request: without [params] the tool name is [None] and
    the answer is -32602 "Unknown tool: None"; with [params] that are not
    an object, [handle_request] raises [AttributeError] outside the
    [try] of [call_tool], so it is the main loop that answers, with
    "Internal error"; with [params] that are an object the request is
    [call_tool] on its [name] and [arguments], absent arguments counting
    as the empty mapping. *)
Theorem handle_request_tools_call (self : MCPFilesystemServer)
    (d : list (str * pyval)) (w : W) :
  lookup d (lit "method") = Some (PStr (lit "tools/call")) ->
  (lookup d (lit "params") = None ->
   handle_request self (PDict d) w
   = (Ok (error_response (-32602) (lit "Unknown tool: None")), w))
  /\ (forall params,
        lookup d (lit "params") = Some params ->
        (forall ps, params <> PDict ps) ->
        handle_request self (PDict d) w
        = (Raise (Exn AttributeError
                    (lit "'" ++ type_name params
                     ++ lit "' object has no attribute 'get'")), w)
        /\ main_turn self (PDict d) w
           = (Ok (error_response (-32603)
                    (lit "Internal error: '" ++ type_name params
                     ++ lit "' object has no attribute 'get'")), w))
  /\ (forall ps,
        lookup d (lit "params") = Some (PDict ps) ->
        handle_request self (PDict d) w
        = call_tool self
            (match lookup ps (lit "name") with Some n => n | None => PNone end)
            (match lookup ps (lit "arguments") with
             | Some a => a
             | None => PDict []
             end) w).
Proof.
  intros Hmethod.
  assert (Hstart : forall k : pyval -> M W pyval,
             (method <- lift (get (PDict d) "method" PNone);; k method) w
             = k (PStr (lit "tools/call")) w).
  { intros k. unfold bind, lift, get. now rewrite Hmethod. }
  split; [|split].
  - intros Hparams. unfold handle_request. rewrite Hstart.
    unfold bind, lift, get. rewrite Hparams. reflexivity.
  - intros params Hparams Hnot.
    assert (Hrun : handle_request self (PDict d) w
                   = (Raise (Exn AttributeError
                               (lit "'" ++ type_name params
                                ++ lit "' object has no attribute 'get'")), w)).
    { unfold handle_request. rewrite Hstart.
      unfold bind at 1. unfold lift at 1. unfold get at 1. rewrite Hparams.
      change (eq_str (PStr (lit "tools/call")) (lit "tools/list")) with false.
      change (eq_str (PStr (lit "tools/call")) (lit "tools/call")) with true.
      cbv iota. unfold bind, lift.
      destruct params; try reflexivity. now destruct (Hnot d0). }
    split; [exact Hrun|].
    unfold main_turn, try_except. now rewrite Hrun.
  - intros ps Hparams. unfold handle_request. rewrite Hstart.
    unfold bind, lift, get. rewrite Hparams. reflexivity.
Qed.

End DispatcherMore.

Lemma call_tool_arguments_not_a_mapping_witness :
  call_tool demo_server (PStr (lit "read_file")) (PList [PStr (lit "/tmp/x")])
    demo_world
  = (Ok (error_response (-32603)
           (lit "Tool execution failed: 'list' object has no attribute 'get'")),
     demo_world).
Proof.
  apply (@call_tool_arguments_not_a_mapping world mem_platform demo_server
           (PStr (lit "read_file")) (PList [PStr (lit "/tmp/x")]) demo_world).
  - now left.
  - discriminate.
Defined.

Lemma call_tool_missing_keys_witness :
  call_tool demo_server (PStr (lit "write_file"))
    (PDict [(lit "path", PStr (lit "/tmp/new.txt"))]) demo_world
  = (Ok (error_response (-32602) (lit "Path and content are required")),
     demo_world).
Proof.
  apply (proj2 (@call_tool_missing_keys world mem_platform demo_server
                  [(lit "path", PStr (lit "/tmp/new.txt"))] demo_world)).
  right. reflexivity.
Defined.

Lemma handle_request_other_methods_witness :
  handle_request demo_server
    (PDict [(lit "method", PStr (lit "resources/list"))]) demo_world
  = (Ok (error_response (-32601) (lit "Method not found: resources/list")),
     demo_world).
Proof.
  apply (proj1 (@handle_request_other_methods world mem_platform demo_server
                  (PDict [(lit "method", PStr (lit "resources/list"))])
                  demo_world)
           [(lit "method", PStr (lit "resources/list"))]
           (PStr (lit "resources/list")) eq_refl eq_refl);
    discriminate.
Defined.

Lemma handle_request_tools_call_witness :
  handle_request demo_server
    (PDict [(lit "method", PStr (lit "tools/call"))]) demo_world
  = (Ok (error_response (-32602) (lit "Unknown tool: None")), demo_world).
Proof.
  apply (proj1 (@handle_request_tools_call world mem_platform demo_server
                  [(lit "method", PStr (lit "tools/call"))] demo_world
                  eq_refl)).
  reflexivity.
Defined.

(* ================================================================== *)
(** ** The catalog and the dispatcher agree *)


Section CatalogAgrees.
Context {W : Type} {platform : Platform W}.



End CatalogAgrees.


(* ================================================================== *)
(** ** The transport loop answers every line *)

Section MainMore.
Context {W : Type} {platform : Platform W}.
Variable loads_stripped : str -> parsed.

Lemma main_iteration_returns (server : MCPFilesystemServer) (line : str) (w : W) :
  exists response, main_iteration loads_stripped server line w = (Ok response, w).
Proof.
  unfold main_iteration.
  destruct (loads_stripped line) as [request| |e].
  - apply main_turn_returns.
  - eexists. reflexivity.
  - eexists. reflexivity.
Qed.

(** X18.  [main] never stops on a bad line.  Whatever is read, it returns, it
    leaves the world as it was, and it prints one response for each read
    that comes before the end of the input: code -32700 "Parse error:
    Invalid JSON" for a line that is not JSON, code -32603 "Internal
    error: ..." for a read or a parse that raises something else, and for
    a line that parses the response the request gets on its own. *)
Theorem main_answers_every_line (server : MCPFilesystemServer)
    (stdin : list (res str)) (w : W) :
  exists responses,
    main loads_stripped server stdin w = (Ok responses, w)
    /\ Forall2
         (fun read response =>
            match read with
            | Raise e =>
                response = error_response (-32603)
                             (lit "Internal error: " ++ exn_str e)
            | Ok line =>
                match loads_stripped line with
                | Parsed request =>
                    main_turn server request w = (Ok response, w)
                | JSONDecodeError =>
                    response = error_response (-32700)
                                 (lit "Parse error: Invalid JSON")
                | ParseFault e =>
                    response = error_response (-32603)
                                 (lit "Internal error: " ++ exn_str e)
                end
            end)
         (lines_before_eof stdin) responses.
Proof.
  induction stdin as [|read stdin [responses [Hrun Hall]]].
  - exists []. split; [reflexivity | constructor].
  - destruct read as [line|e]; cbn [main lines_before_eof].
    + destruct (is_nil line).
      { exists []. split; [reflexivity | constructor]. }
      destruct (main_iteration_returns server line w) as [response Hone].
      exists (response :: responses). unfold bind, ret.
      rewrite Hone, Hrun. split; [reflexivity|].
      constructor; [|exact Hall].
      unfold main_iteration in Hone.
      destruct (loads_stripped line) as [request| |e'].
      * exact Hone.
      * now injection Hone as <-.
      * now injection Hone as <-.
    + eexists (_ :: responses). unfold bind, ret. rewrite Hrun.
      split; [reflexivity|]. constructor; [reflexivity | exact Hall].
Qed.

End MainMore.

(** A line that is not JSON, then [tools/list], then the end of the input:
    two responses, and what follows the end is not read. *)
Example main_after_a_bad_line :
  main demo_loads demo_server
    [Ok (lit "not json" ++ nl); Ok tools_list_line; Ok [];
     Ok tools_list_line]
    demo_world
  = (Ok [error_response (-32700) (lit "Parse error: Invalid JSON");
         PDict [(lit "tools", tools demo_server)]], demo_world).
Proof. vm_compute. reflexivity. Qed.
